(** * yang-browser backend: NSP session handling and intent-type catalogue

    A shallow embedding of [backend/nsp-intents.go] and of the NSP handlers
    of [backend/mux.go] (nspConnect, tokenRefreshRoutine, nspDisconnect),
    with the properties of the session manager and of the paginated
    intent-type search stated and proved over it.

    Go's [int] is modelled as [Z] with the 64-bit wrap-around written out
    where the code does arithmetic; Go strings are byte strings, modelled
    by [string]; a Go [error] is an inductive type with its rendering
    [Error]; the server value [*srv] is threaded explicitly. *)

From Stdlib Require Import ZArith List String Ascii Bool Lia.
From Stdlib Require Import DecimalString DecimalZ FinFun.
Import ListNotations.

Local Open Scope string_scope.
Local Open Scope list_scope.
Local Open Scope Z_scope.

(* ------------------------------------------------------------------ *)
(** ** Go primitives used by the handlers *)

Module Go.

(** Signed 64-bit wrap-around of Go's [int] / [int64] arithmetic. *)
Definition wrap64 (z : Z) : Z := (z + 2 ^ 63) mod 2 ^ 64 - 2 ^ 63.

Definition int_range (z : Z) : Prop := - 2 ^ 63 <= z < 2 ^ 63.

(** The verb [%d] of [fmt.Sprintf]: decimal digits, ['-'] for negatives. *)
Definition fmt_d (z : Z) : string := NilEmpty.string_of_int (Z.to_int z).

(** [len(s)] in bytes. *)
Definition len (s : string) : Z := Z.of_nat (String.length s).

(** Membership of a byte in a string. *)
Fixpoint contains (c : ascii) (s : string) : bool :=
  match s with
  | EmptyString => false
  | String a rest => Ascii.eqb a c || contains c rest
  end.

(** [strings.LastIndex(s, sep)] for a one-byte separator (the standard
    library dispatches this case to [LastIndexByteString]): the index of
    the last occurrence of [c] in [s], or [-1]. *)
Fixpoint LastIndexByte (s : string) (c : ascii) : Z :=
  match s with
  | EmptyString => -1
  | String a rest =>
      let r := LastIndexByte rest c in
      if 0 <=? r then r + 1
      else if Ascii.eqb a c then 0 else -1
  end.

(** The slice expressions [s[:i]] and [s[i:]], for [0 <= i <= len s]. *)
Definition slice_to (s : string) (i : Z) : string :=
  String.substring 0 (Z.to_nat i) s.

Definition slice_from (s : string) (i : Z) : string :=
  String.substring (Z.to_nat i) (String.length s - Z.to_nat i) s.

End Go.

(* ------------------------------------------------------------------ *)
(** ** Data model of nsp-intents.go *)

Record IbnInput := {
  PageNumber : Z;
  PageSize : Z
}.

Record IntentTypeSearchPayload := {
  Input : IbnInput
}.

Record IntentType := {
  Name : string;
  Version : Z
}.

(** The anonymous [Output] struct of [IntentTypeList]. *)
Record IntentTypeList := {
  OutPageSize : Z;
  TotalCount : Z;
  IntentTypes : list IntentType
}.

Record IntentTypeYangModule := {
  ModName : string;
  YangContent : string
}.

(** [fmt.Sprintf("%s_%d", intentType.Name, intentType.Version)]. *)
Definition intentTypeKey (it : IntentType) : string :=
  (Name it ++ "_" ++ Go.fmt_d (Version it))%string.

(** Lines 93-99 of [intentTypeYangModules]: the key is cut at the last
    underscore; [None] is the [lastInd == -1] branch. *)
Definition splitIntentType (intentType : string) : option (string * string) :=
  let lastInd := Go.LastIndexByte intentType "_"%char in
  if lastInd =? -1 then None
  else
    let name := Go.slice_to intentType lastInd in
    let version := Go.slice_from intentType (lastInd + 1) in
    Some (name, version).

(* ------------------------------------------------------------------ *)
(** ** Errors *)

(** The errors built by [fmt.Errorf] in nsp-intents.go, one constructor
    per call site; [External] is an error handed over by a collaborator
    (transport, JSON decoder, token helpers). *)
Inductive error : Type :=
| External (msg : string)
| ErrFetchIntentTypes (cause : error)
| ErrIntentTypesStatus (status : Z)
| ErrDecodeIntentTypes (cause : error)
| ErrPaginatedIntentTypes (cause : error)
| ErrInvalidIntentType (intentType : string)
| ErrFetchYangModules (cause : error)
| ErrYangModulesStatus (status : Z)
| ErrDecodeYangModules (cause : error).

(** The method [Error()] of the value, i.e. what [%v] and [%s] print. *)
Fixpoint Error (e : error) : string :=
  match e with
  | External msg => msg
  | ErrFetchIntentTypes c => "[Error] fetching intent types: " ++ Error c
  | ErrIntentTypesStatus st => "[Error] fetching intent types, status: " ++ Go.fmt_d st
  | ErrDecodeIntentTypes c => "[Error] decoding intent type search response: " ++ Error c
  | ErrPaginatedIntentTypes c => "[Error] fetching paginated intent types: " ++ Error c
  | ErrInvalidIntentType k => "[Error] invalid intent type format: " ++ k
  | ErrFetchYangModules c => "[Error] fetching YANG modules for intent type: " ++ Error c
  | ErrYangModulesStatus st => "[Error] fetching YANG modules, status: " ++ Go.fmt_d st
  | ErrDecodeYangModules c => "[Error] decoding YANG modules response: " ++ Error c
  end%string.

(** What a Go function of type [(T, error)] does in the model; [OutOfFuel]
    marks a run cut off by the recursion budget and is no Go value. *)
Inductive outcome (A : Type) : Type :=
| Returned (a : A)
| Failed (e : error)
| OutOfFuel.

Arguments Returned {A} a.
Arguments Failed {A} e.
Arguments OutOfFuel {A}.

(* ------------------------------------------------------------------ *)
(** ** Session state *)

(** Modelled from the spec: the token struct of [NspAccess], declared
    outside the files at hand; section 3 gives it an access token string
    and a time-to-live in seconds, and mux.go reads the fields
    [AccessToken] and [ExpiresIn]. *)
Record NspToken := {
  AccessToken : string;
  ExpiresIn : Z
}.

(** Modelled from the spec: the [NspAccess] struct held in [srv.nsp],
    declared outside the files at hand; section 3 gives the credentials
    host address, username and password, and mux.go reads the fields
    [Ip], [User], [Pass] and the unexported [token]. *)
Record NspAccess := {
  Ip : string;
  User : string;
  Pass : string;
  token : NspToken
}.

Definition noToken : NspToken := {| AccessToken := ""; ExpiresIn := 0 |}.

(** The zero value of [NspAccess]: a server that never connected. *)
Definition zeroNsp : NspAccess :=
  {| Ip := ""; User := ""; Pass := ""; token := noToken |}.

(** The two requests nsp-intents.go hands to [makeHTTPRequest]. *)
Inductive Request : Type :=
| PostSearchIntentTypes (host : string) (payload : IntentTypeSearchPayload)
| GetIntentType (host name version : string).

(** A response body, by what each [json.NewDecoder(resp.Body).Decode]
    of nsp-intents.go makes of it. *)
Record ResponseBody := {
  asIntentTypeList : error + IntentTypeList;
  asIntentTypeDefinition : error + list IntentTypeYangModule
}.

Record Response := {
  StatusCode : Z;
  Body : ResponseBody
}.

(** Calls that leave the process, and what the renewal routine does,
    in the order they happen. *)
Inductive Event : Type :=
| EvHTTP (req : Request)
| EvGetToken
| EvRevokeToken
| EvSleep (nanoseconds : Z)
| EvLog (line : string).

(** A goroutine running [tokenRefreshRoutine]: at the head of its loop,
    or inside [time.Sleep]. *)
Inductive Routine : Type :=
| AtLoopHead
| Sleeping (nanoseconds : Z).

(** The server value [*srv] as far as the NSP handlers use it, with the
    history of outside calls and the pool of live renewal goroutines. *)
Record srv := {
  nsp : NspAccess;
  events : list Event;
  routines : list Routine
}.

Definition zeroSrv : srv := {| nsp := zeroNsp; events := []; routines := [] |}.

Definition record (ev : Event) (s : srv) : srv :=
  {| nsp := nsp s; events := events s ++ [ev]; routines := routines s |}.

Definition setNsp (acc : NspAccess) (s : srv) : srv :=
  {| nsp := acc; events := events s; routines := routines s |}.

(** The [go] statement for [tokenRefreshRoutine]. *)
Definition spawn (s : srv) : srv :=
  {| nsp := nsp s; events := events s; routines := routines s ++ [AtLoopHead] |}.

(** An event that reaches the remote platform. *)
Definition isTransport (ev : Event) : bool :=
  match ev with
  | EvHTTP _ | EvGetToken | EvRevokeToken => true
  | EvSleep _ | EvLog _ => false
  end.

Definition transportCalls (s : srv) : list Event := filter isTransport (events s).

(** [nspIsConnected] takes the session for connected when a token is held. *)
Definition isConnected (s : srv) : bool :=
  negb (AccessToken (token (nsp s)) =? "")%string.

(** Modelled from the spec: the methods [makeHTTPRequest], [getToken] and
    [revokeToken] of [srv], defined outside the files at hand. Section 2
    takes Transport for an outside collaborator that issues one request and
    gives back a response or an error; the token helpers are the
    authentication and revoke calls of section 6. Each is any function of
    the session and of the calls made so far; the token helpers give back
    the session as they leave it. [logPrintf] is the logger of [srv]
    (section 7, the outside observer errors are reported to): the line
    [s.logger.Printf(format, err)] writes when it is handed a format and
    an error as its one operand. *)
Record Collaborators := {
  transport : NspAccess -> list Event -> Request -> error + Response;
  authenticate : NspAccess -> list Event -> option error * NspAccess;
  revoke : NspAccess -> list Event -> option error * NspAccess;
  logPrintf : string -> error -> string
}.

(* ------------------------------------------------------------------ *)
(** ** The operations *)

Section Backend.

Variable env : Collaborators.

Definition makeHTTPRequest (req : Request) (s : srv) : (error + Response) * srv :=
  (transport env (nsp s) (events s) req, record (EvHTTP req) s).

Definition getToken (s : srv) : option error * srv :=
  let (err, acc) := authenticate env (nsp s) (events s) in
  (err, setNsp acc (record EvGetToken s)).

Definition revokeToken (s : srv) : option error * srv :=
  let (err, acc) := revoke env (nsp s) (events s) in
  (err, setNsp acc (record EvRevokeToken s)).

(** *** nsp-intents.go *)

Definition searchRequest (s : srv) (pageNumber pageSize : Z) : Request :=
  PostSearchIntentTypes (Ip (nsp s))
    {| Input := {| PageNumber := pageNumber; PageSize := pageSize |} |}.

(** The test of line 80. *)
Definition morePages (out : IntentTypeList) (pageSize : Z) : bool :=
  (OutPageSize out =? pageSize) && (TotalCount out >? pageSize).

(** [intentTypeSearch]: the recursion of line 81 is cut off by [fuel].
    [json.Marshal] of a struct of two ints cannot fail and is left out. *)
Fixpoint intentTypeSearch (fuel : nat) (pageNumber pageSize : Z) (s : srv)
  : outcome (list string) * srv :=
  match fuel with
  | O => (OutOfFuel, s)
  | S fuel' =>
    let (resp, s1) := makeHTTPRequest (searchRequest s pageNumber pageSize) s in
    match resp with
    | inl err => (Failed (ErrFetchIntentTypes err), s1)
    | inr resp =>
      if negb (StatusCode resp =? 200) then
        (Failed (ErrIntentTypesStatus (StatusCode resp)), s1)
      else
        match asIntentTypeList (Body resp) with
        | inl err => (Failed (ErrDecodeIntentTypes err), s1)
        | inr intentTypeList =>
          let intentTypes := map intentTypeKey (IntentTypes intentTypeList) in
          if morePages intentTypeList pageSize then
            match intentTypeSearch fuel' (Go.wrap64 (pageNumber + 1)) pageSize s1 with
            | (Returned nextPage, s2) => (Returned (intentTypes ++ nextPage), s2)
            | (Failed err, s2) => (Failed (ErrPaginatedIntentTypes err), s2)
            | (OutOfFuel, s2) => (OutOfFuel, s2)
            end
          else (Returned intentTypes, s1)
        end
    end
  end.

(** [intentTypeYangModules]; [url.QueryEscape(name)] is applied when the
    request is put on the wire. *)
Definition intentTypeYangModules (intentType : string) (s : srv)
  : outcome (list IntentTypeYangModule) * srv :=
  match splitIntentType intentType with
  | None => (Failed (ErrInvalidIntentType intentType), s)
  | Some (name, version) =>
    let (resp, s1) := makeHTTPRequest (GetIntentType (Ip (nsp s)) name version) s in
    match resp with
    | inl err => (Failed (ErrFetchYangModules err), s1)
    | inr resp =>
      if negb (StatusCode resp =? 200) then
        (Failed (ErrYangModulesStatus (StatusCode resp)), s1)
      else
        match asIntentTypeDefinition (Body resp) with
        | inl err => (Failed (ErrDecodeYangModules err), s1)
        | inr modules => (Returned modules, s1)
        end
    end
  end.

(** *** mux.go: replies *)

Record HttpReply := {
  code : Z;
  text : string
}.

Definition LF : string := String (Ascii.ascii_of_nat 10) EmptyString.

(** [http.Error] sends the message followed by a newline. *)
Definition httpError (msg : string) (status : Z) : HttpReply :=
  {| code := status; text := (msg ++ LF)%string |}.

Definition writeResponse (status msg : string) : HttpReply :=
  if (status =? "error")%string && negb (msg =? "")%string then
    httpError msg 500
  else if (status =? "success")%string then
    {| code := 200; text := msg |}
  else
    httpError "unknown error" 500.

(** [raiseError]: an error at hand is logged, by [s.logger.Printf(msg, err)]
    with the message as format and the error as operand, and appended to
    the message of the reply. *)
Definition raiseError (msg : string) (err : option error) (s : srv)
  : HttpReply * srv :=
  match err with
  | Some e =>
      (writeResponse "error" (msg ++ " / " ++ Error e)%string,
       record (EvLog (logPrintf env msg e)) s)
  | None => (writeResponse "error" msg, s)
  end.

(** The replies the spec names. *)
Definition MissingCredentials : HttpReply :=
  httpError "NSP credentials are missing" 500.

Definition NotConnected : HttpReply :=
  httpError "NSP is not connected" 500.

(** *** mux.go: nspConnect *)

(** The body of a connect request, by what [json.Decoder.Decode] into
    [&s.nsp] makes of it. A body that is no JSON value stores nothing. A
    JSON object stores each credential it carries as a string ([Some]) and
    leaves the others, absent or null, as they were; a member of the wrong
    type is skipped and reported after the rest is stored. The unexported
    [token] is out of the decoder's reach. *)
Inductive ConnectBody : Type :=
| NotJSON (err : error)
| Object (ip user pass : option string) (typeError : option error).

Definition orKeep (field : option string) (old : string) : string :=
  match field with
  | Some v => v
  | None => old
  end.

Definition Decode (body : ConnectBody) (acc : NspAccess) : option error * NspAccess :=
  match body with
  | NotJSON err => (Some err, acc)
  | Object ip user pass typeError =>
      (typeError,
       {| Ip := orKeep ip (Ip acc);
          User := orKeep user (User acc);
          Pass := orKeep pass (Pass acc);
          token := token acc |})
  end.

Definition nspConnect (body : ConnectBody) (s : srv) : HttpReply * srv :=
  let (err, acc) := Decode body (nsp s) in
  let s := setNsp acc s in
  match err with
  | Some err => raiseError "decoding NSP connect request failed" (Some err) s
  | None =>
    if (Ip (nsp s) =? "")%string || (User (nsp s) =? "")%string
       || (Pass (nsp s) =? "")%string then
      raiseError "NSP credentials are missing" None s
    else
      match getToken s with
      | (Some err, s) => raiseError "error making NSP connection" (Some err) s
      | (None, s) =>
          let s := spawn s in
          (writeResponse "success" "NSP connected", s)
      end
  end.

(** *** mux.go: tokenRefreshRoutine *)

Definition logf (line : string) (s : srv) : srv := record (EvLog line) s.

(** Lines 330-338: the time-to-live is read under the lock; [None] is the
    [return] of line 335, otherwise the argument of [time.Sleep], in
    nanoseconds. *)
Definition refreshHead (s : srv) : option Z :=
  let tokenExpiresIn := ExpiresIn (token (nsp s)) in
  if tokenExpiresIn =? 0 then None
  else Some (Go.wrap64 (1000000000 * Go.wrap64 (tokenExpiresIn - 10))).

(** Lines 340-353: revoke and re-acquire under the lock; [false] is a
    [return]. *)
Definition refreshRenew (s : srv) : bool * srv :=
  let s := logf "[Info] NSP Access renewal initiated" s in
  match revokeToken s with
  | (Some err, s) =>
      (false, logf ("disconnecting from NSP (" ++ Ip (nsp s) ++ ") failed: "
                    ++ Error err)%string s)
  | (None, s) =>
      match getToken s with
      | (Some err, s) =>
          (false, logf ("reconnecting to NSP (" ++ Ip (nsp s) ++ ") failed: "
                        ++ Error err)%string s)
      | (None, s) => (true, logf "[Info] NSP Access renewed" s)
      end
  end.

(** The routine run on its own, [fuel] bounding the turns of its loop.
    [time.Sleep] with a duration of zero or less returns at once. *)
Fixpoint tokenRefreshRoutine (fuel : nat) (s : srv) : outcome unit * srv :=
  match fuel with
  | O => (OutOfFuel, s)
  | S fuel' =>
    match refreshHead s with
    | None => (Returned tt, s)
    | Some d =>
      let s := record (EvSleep d) s in
      let (again, s) := refreshRenew s in
      if again then tokenRefreshRoutine fuel' s else (Returned tt, s)
    end
  end.

(** One move of a pooled routine: from the loop head into its sleep or
    out of the routine, from the sleep through one renewal. [None] is a
    routine that returned. *)
Definition stepRoutine (r : Routine) (s : srv) : option Routine * srv :=
  match r with
  | AtLoopHead =>
      match refreshHead s with
      | None => (None, s)
      | Some d => (Some (Sleeping d), record (EvSleep d) s)
      end
  | Sleeping _ =>
      let (again, s) := refreshRenew s in
      (if again then Some AtLoopHead else None, s)
  end.

(** Every pooled routine makes one move, in pool order. *)
Fixpoint stepAll (pool : list Routine) (s : srv) : list Routine * srv :=
  match pool with
  | [] => ([], s)
  | r :: rest =>
      let (r', s) := stepRoutine r s in
      let (rest', s) := stepAll rest s in
      (match r' with Some r' => r' :: rest' | None => rest' end, s)
  end.

(** The scheduler lets every live routine move once. *)
Definition schedule (s : srv) : srv :=
  let (pool, s') := stepAll (routines s) s in
  {| nsp := nsp s'; events := events s'; routines := pool |}.

(** *** mux.go: nspDisconnect *)

Definition nspDisconnect (s : srv) : HttpReply * srv :=
  if (Ip (nsp s) =? "")%string then
    raiseError "NSP is not connected" None s
  else
    match revokeToken s with
    | (Some err, s) =>
        raiseError ("disconnecting from NSP (" ++ Ip (nsp s) ++ ") failed")%string
                   (Some err) s
    | (None, s) => (writeResponse "success" "NSP disconnected", s)
    end.

End Backend.

(* ------------------------------------------------------------------ *)
(** ** Servers and runs the properties speak about *)

(** Events added to the history between two states of the server. *)
Definition since (before after : srv) : list Event :=
  skipn (List.length (events before)) (events after).

(** What [intentTypeSearch] makes of one answer of the transport: the
    decoded list when it is a 200 that decodes. *)
Definition decodedPage (r : error + Response) : option IntentTypeList :=
  match r with
  | inl _ => None
  | inr resp =>
      if negb (StatusCode resp =? 200) then None
      else match asIntentTypeList (Body resp) with
           | inl _ => None
           | inr out => Some out
           end
  end.

(** The answer lets the search go on to the next page. *)
Definition continues (r : error + Response) (pageSize : Z) : bool :=
  match decodedPage r with
  | Some out => morePages out pageSize
  | None => false
  end.

(** The server and the page number after [k] page fetches of a search
    started at [pageNumber]. *)
Fixpoint afterFetches (k : nat) (pageNumber pageSize : Z) (s : srv) : srv * Z :=
  match k with
  | O => (s, pageNumber)
  | S k' =>
      afterFetches k' (Go.wrap64 (pageNumber + 1)) pageSize
        (record (EvHTTP (searchRequest s pageNumber pageSize)) s)
  end.

(** The transport's answer to the fetch number [k] (from 0) of a search. *)
Definition responseAt (env : Collaborators) (k : nat) (pageNumber pageSize : Z)
  (s : srv) : error + Response :=
  let (s', p') := afterFetches k pageNumber pageSize s in
  transport env (nsp s') (events s') (searchRequest s' p' pageSize).

(** The continuation test in the words of the spec, section 4.2: the
    reported page-size equals the requested one and the running total of
    pairs fetched is below the reported total-count. *)
Definition specMorePages (out : IntentTypeList) (pageSize running : Z) : bool :=
  (OutPageSize out =? pageSize) && (running <? TotalCount out).

(** The number of pairs on the page of fetch number [k], and the running
    total of pairs fetched up to and with that page. *)
Definition pairsAt (env : Collaborators) (k : nat) (pageNumber pageSize : Z)
  (s : srv) : Z :=
  match decodedPage (responseAt env k pageNumber pageSize s) with
  | Some out => Z.of_nat (List.length (IntentTypes out))
  | None => 0
  end.

Fixpoint runningTotal (env : Collaborators) (k : nat) (pageNumber pageSize : Z)
  (s : srv) : Z :=
  match k with
  | O => pairsAt env O pageNumber pageSize s
  | S k' =>
      runningTotal env k' pageNumber pageSize s
      + pairsAt env (S k') pageNumber pageSize s
  end.

(** The spec's test on the answer to fetch number [k]. *)
Definition specContinues (env : Collaborators) (k : nat) (pageNumber pageSize : Z)
  (s : srv) : bool :=
  match decodedPage (responseAt env k pageNumber pageSize s) with
  | Some out => specMorePages out pageSize (runningTotal env k pageNumber pageSize s)
  | None => false
  end.

(** The search in the words of the spec: a loop over pages that carries
    the running total. *)
Fixpoint searchByRunningTotal (env : Collaborators) (fuel : nat)
  (pageNumber pageSize running : Z) (s : srv) : outcome (list string) * srv :=
  match fuel with
  | O => (OutOfFuel, s)
  | S fuel' =>
    let (resp, s1) := makeHTTPRequest env (searchRequest s pageNumber pageSize) s in
    match decodedPage resp with
    | None => (Failed (External "search failed"), s1)
    | Some out =>
      let keys := map intentTypeKey (IntentTypes out) in
      let running := running + Z.of_nat (List.length (IntentTypes out)) in
      if specMorePages out pageSize running then
        match searchByRunningTotal env fuel' (pageNumber + 1) pageSize running s1 with
        | (Returned next, s2) => (Returned (keys ++ next), s2)
        | other => other
        end
      else (Returned keys, s1)
    end
  end.

Definition noModules : error + list IntentTypeYangModule :=
  inl (External "no intent-type in body").

Definition searchResponse (out : IntentTypeList) : Response :=
  {| StatusCode := 200;
     Body := {| asIntentTypeList := inr out; asIntentTypeDefinition := noModules |} |}.

(** A catalogue of intent types served in order: page [pageNumber] holds
    the [pageSize] entries from position [pageNumber * pageSize] on (fewer
    at the end of the data), the reported page-size is the number of
    entries on the page and the reported total-count the size of the
    catalogue. *)
Definition pageOf (data : list IntentType) (pageNumber pageSize : Z) : list IntentType :=
  firstn (Z.to_nat pageSize) (skipn (Z.to_nat (pageNumber * pageSize)) data).

Definition catalogueResponse (data : list IntentType) (pageNumber pageSize : Z)
  : Response :=
  searchResponse
    {| OutPageSize := Z.of_nat (List.length (pageOf data pageNumber pageSize));
       TotalCount := Z.of_nat (List.length data);
       IntentTypes := pageOf data pageNumber pageSize |}.

(** The transport of [env] serves the catalogue [data] in pages of [pageSize]. *)
Definition servesCatalogue (env : Collaborators) (data : list IntentType)
  (pageSize : Z) : Prop :=
  forall acc history host pageNumber,
    transport env acc history
      (PostSearchIntentTypes host
         {| Input := {| PageNumber := pageNumber; PageSize := pageSize |} |})
    = inr (catalogueResponse data pageNumber pageSize).

(** Modelled from the spec: [getToken], defined outside the files at hand.
    Section 4.1: one authentication call, whose success stores the token;
    a failure gives the error back. [auth] is the answer of the
    authentication endpoint. *)
Definition specGetToken (auth : NspAccess -> list Event -> error + NspToken)
  (acc : NspAccess) (history : list Event) : option error * NspAccess :=
  match auth acc history with
  | inl err => (Some err, acc)
  | inr tok =>
      (None, {| Ip := Ip acc; User := User acc; Pass := Pass acc; token := tok |})
  end.

(** Modelled from the spec: [revokeToken], defined outside the files at
    hand. Sections 4.1 and 6: one revoke call that invalidates the current
    token, after which the token is cleared; a failed call gives the error
    back. [call] is the answer of the revoke endpoint. *)
Definition specRevokeToken (call : NspAccess -> list Event -> option error)
  (acc : NspAccess) (history : list Event) : option error * NspAccess :=
  match call acc history with
  | Some err => (Some err, acc)
  | None =>
      (None, {| Ip := Ip acc; User := User acc; Pass := Pass acc; token := noToken |})
  end.



(** The validation of line 312, on the credentials as decoded. *)
Definition hasEmptyField (acc : NspAccess) : Prop :=
  Ip acc = "" \/ User acc = "" \/ Pass acc = "".

Definition renewalStarted : Event := EvLog "[Info] NSP Access renewal initiated".

(** The argument of [time.Sleep] for a time-to-live [ttl], in nanoseconds. *)
Definition sleepFor (ttl : Z) : Z := Go.wrap64 (1000000000 * Go.wrap64 (ttl - 10)).

(** The entries of a catalogue from page [k] on. *)
Definition entriesFrom (data : list IntentType) (pageSize k : Z) : list IntentType :=
  skipn (Z.to_nat (k * pageSize)) data.

(** *** Concrete servers *)

(** What [fmt] writes for a format without verbs and one operand made by
    [errors.New]: the format, then the operand flagged as extra. *)
Definition printfExtra (format : string) (err : error) : string :=
  (format ++ "%!(EXTRA *errors.errorString=" ++ Error err ++ ")")%string.


(** A platform whose authentication always grants a token living [ttl]
    seconds, whose revoke endpoint answers [revokeAnswer], and whose
    search serves the catalogue [data]. *)
Definition platform (ttl : Z) (revokeAnswer : option error) (data : list IntentType)
  : Collaborators :=
  {| transport := fun _ _ req =>
       match req with
       | PostSearchIntentTypes _ payload =>
           inr (catalogueResponse data (PageNumber (Input payload))
                  (PageSize (Input payload)))
       | GetIntentType _ _ _ => inl (External "no such intent type")
       end;
     authenticate :=
       specGetToken (fun _ _ => inr {| AccessToken := "secret"; ExpiresIn := ttl |});
     revoke := specRevokeToken (fun _ _ => revokeAnswer);
     logPrintf := printfExtra |}.

(** A server that answers every search with an empty page and reports
    the requested page-size and a total-count one above it. *)
Definition alwaysMore : Collaborators :=
  {| transport := fun _ _ req =>
       match req with
       | PostSearchIntentTypes _ payload =>
           inr (searchResponse
                  {| OutPageSize := PageSize (Input payload);
                     TotalCount := PageSize (Input payload) + 1;
                     IntentTypes := [] |})
       | GetIntentType _ _ _ => inl (External "no such intent type")
       end;
     authenticate := specGetToken (fun _ _ => inl (External "unreachable"));
     revoke := specRevokeToken (fun _ _ => Some (External "unreachable"));
     logPrintf := printfExtra |}.

Definition intentTypesNamed (names : list string) : list IntentType :=
  map (fun n => {| Name := n; Version := 1 |}) names.

Definition sixTypes : list IntentType :=
  intentTypesNamed ["a"; "b"; "c"; "d"; "e"; "f"].

Definition sevenTypes : list IntentType :=
  intentTypesNamed ["a"; "b"; "c"; "d"; "e"; "f"; "g"].

(** A session that connected to 10.0.0.1 and holds a token living [ttl]
    seconds. *)
Definition sessionWithTtl (ttl : Z) : srv :=
  {| nsp := {| Ip := "10.0.0.1"; User := "admin"; Pass := "pw";
               token := {| AccessToken := "secret"; ExpiresIn := ttl |} |};
     events := [];
     routines := [AtLoopHead] |}.

Definition connectedSrv : srv := sessionWithTtl 3600.

(** Connect requests handled one after the other. *)
Fixpoint connectAll (env : Collaborators) (bodies : list ConnectBody) (s : srv)
  : list HttpReply * srv :=
  match bodies with
  | [] => ([], s)
  | body :: rest =>
      let (reply, s) := nspConnect env body s in
      let (replies, s) := connectAll env rest s in
      (reply :: replies, s)
  end.

Definition fullBody (ip user pass : string) : ConnectBody :=
  Object (Some ip) (Some user) (Some pass) None.

(* ------------------------------------------------------------------ *)
(** ** The other handlers of mux.go *)

(** What [intentTypeSearch] returns for an answer that ends it with an
    error: transport failure, status other than 200, undecodable body. *)
Definition pageError (r : error + Response) : option error :=
  match r with
  | inl err => Some (ErrFetchIntentTypes err)
  | inr resp =>
      if negb (StatusCode resp =? 200) then
        Some (ErrIntentTypesStatus (StatusCode resp))
      else match asIntentTypeList (Body resp) with
           | inl err => Some (ErrDecodeIntentTypes err)
           | inr _ => None
           end
  end.

(** The keys on the page of fetch number [k] of a search. *)
Definition keysAt (env : Collaborators) (pageNumber pageSize : Z) (s : srv)
  (k : nat) : list string :=
  match decodedPage (responseAt env k pageNumber pageSize s) with
  | Some out => map intentTypeKey (IntentTypes out)
  | None => []
  end.

Unset Elimination Schemes.

(** A JSON value as [json.MarshalIndent] writes it out. *)
Inductive Json : Type :=
| JNull
| JString (s : string)
| JArray (items : list Json)
| JObject (members : list (string * Json)).

Set Elimination Schemes.

(** What a handler writes: a plain-text reply ([writeResponse]) or a JSON
    body with status 200 ([writeJsonResponse]). *)
Inductive Reply : Type :=
| Plain (r : HttpReply)
| JsonBody (v : Json).

Definition raiseErrorReply (env : Collaborators) (msg : string)
  (err : option error) (s : srv) : Reply * srv :=
  let (r, s') := raiseError env msg err s in (Plain r, s').

(** [connectionOk]. *)
Definition connectionOk : HttpReply := writeResponse "success" "Backend active".

(** [nspIsConnected]: the local struct [NspAccessExport] has the members
    [ip] and [user]; marshalling two strings cannot fail. *)
Definition nspIsConnected (env : Collaborators) (s : srv) : Reply * srv :=
  if (AccessToken (token (nsp s)) =? "")%string then
    raiseErrorReply env "NSP is not connected" None s
  else
    (JsonBody (JObject [("ip"%string, JString (Ip (nsp s)));
                        ("user"%string, JString (User (nsp s)))]), s).

(** Host, user and password are all set. *)
Definition credentialsComplete (acc : NspAccess) : Prop :=
  Ip acc <> "" /\ User acc <> "" /\ Pass acc <> "".

(** The platform never refuses a revoke or an authentication, and every
    token it grants has a time-to-live other than 0. *)
Definition neverFails (env : Collaborators) : Prop :=
  (forall acc history, fst (revoke env acc history) = None)
  /\ (forall acc history,
        fst (authenticate env acc history) = None
        /\ ExpiresIn (token (snd (authenticate env acc history))) <> 0).

(** *** Listing *)

Definition yangFolder : string := "../uploads/".

(** An entry of [os.ReadDir]. *)
Record DirEntry := {
  EntryName : string;
  IsDir : bool
}.

(** The local struct [ListResponse] of [list]. *)
Record ListResponse := {
  ListName : string;
  Files : list string
}.

(** [filepath.Ext]: the suffix from the last dot of the last path element
    on, empty without one. The library scans from the end and stops at the
    first dot or separator. *)
Fixpoint Ext (path : string) : string :=
  match path with
  | EmptyString => EmptyString
  | String a rest =>
      if Go.contains "."%char rest || Go.contains "/"%char rest then Ext rest
      else if Ascii.eqb a "."%char then path
      else EmptyString
  end.

Definition isASCIIByte (c : ascii) : bool := (nat_of_ascii c <? 128)%nat.

Fixpoint isASCII (s : string) : bool :=
  match s with
  | EmptyString => true
  | String a rest => isASCIIByte a && isASCII rest
  end.

Definition lowerByte (c : ascii) : ascii :=
  if ((65 <=? nat_of_ascii c) && (nat_of_ascii c <=? 90))%nat
  then ascii_of_nat (nat_of_ascii c + 32)
  else c.

Fixpoint lowerBytes (s : string) : string :=
  match s with
  | EmptyString => EmptyString
  | String a rest => String (lowerByte a) (lowerBytes rest)
  end.

(** The local disk as [list] reads it, and the rune-wise branch of
    [strings.ToLower], which the library takes for a string with a byte
    of 128 or more. *)
Record LocalDisk := {
  ReadDir : string -> error + list DirEntry;
  MapToLower : string -> string
}.

(** [strings.ToLower]: byte-wise on ASCII strings. *)
Definition ToLower (disk : LocalDisk) (s : string) : string :=
  if isASCII s then lowerBytes s else MapToLower disk s.

Definition fileNames (entries : list DirEntry) : list string :=
  map EntryName (filter (fun entry => negb (IsDir entry)) entries).

(** Lines 206-224: one entry for each directory of the uploads folder,
    with the names of its files; the first directory that cannot be read
    ends the loop. *)
Fixpoint listRepos (disk : LocalDisk) (dirEntries : list DirEntry)
  : error + list ListResponse :=
  match dirEntries with
  | [] => inr []
  | entry :: rest =>
      if IsDir entry then
        let folderName := EntryName entry in
        match ReadDir disk (yangFolder ++ folderName ++ "/")%string with
        | inl err => inl err
        | inr repoEntries =>
            let fEntry := {| ListName := folderName; Files := fileNames repoEntries |} in
            match listRepos disk rest with
            | inl err => inl err
            | inr f => inr (fEntry :: f)
            end
        end
      else listRepos disk rest
  end.

(** The test of line 231 on a file of the uploads folder. *)
Definition isYangFile (disk : LocalDisk) (yangFile : string) : bool :=
  (ToLower disk (Ext yangFile) =? ".yang")%string.

(** Lines 226-236: the entry without a name, for the files that lie in
    the uploads folder itself. *)
Definition rootEntry (disk : LocalDisk) (dirEntries : list DirEntry) : ListResponse :=
  {| ListName := "";
     Files := filter (isYangFile disk) (fileNames dirEntries) |}.

(** [ListResponse] as JSON; [files] carries [omitempty]. *)
Definition marshalListResponse (e : ListResponse) : Json :=
  JObject (("name"%string, JString (ListName e))
           :: match Files e with
              | [] => []
              | files => [("files"%string, JArray (map JString files))]
              end).

(** [json.MarshalIndent(f, ...)] for the slice [f], which is nil until the
    first [append]. *)
Definition marshalList (f : list ListResponse) : Json :=
  match f with
  | [] => JNull
  | _ => JArray (map marshalListResponse f)
  end.

(** [list]. The search of the "nsp" kind runs on [fuel]; [None] is a run
    cut off by it and no reply. *)
Definition listHandler (disk : LocalDisk) (env : Collaborators) (fuel : nat)
  (kind : string) (s : srv) : option Reply * srv :=
  if (kind =? "local")%string then
    match ReadDir disk yangFolder with
    | inl err =>
        let (r, s) := raiseErrorReply env "failed to read local uploads directory" (Some err) s in
        (Some r, s)
    | inr dirEntries =>
        match listRepos disk dirEntries with
        | inl err =>
            let (r, s) := raiseErrorReply env "reading local yang repos failed" (Some err) s in
            (Some r, s)
        | inr f =>
            let f := f ++ [rootEntry disk dirEntries] in
            (Some (JsonBody (marshalList f)), s)
        end
    end
  else if (kind =? "nsp")%string then
    match intentTypeSearch env fuel 0 300 s with
    | (OutOfFuel, s) => (None, s)
    | (Failed err, s) =>
        let (r, s) := raiseErrorReply env "fetching NSP intent types failed" (Some err) s in
        (Some r, s)
    | (Returned intentTypeList, s) =>
        let f := map (fun entry => {| ListName := entry; Files := [] |}) intentTypeList in
        (Some (JsonBody (marshalList f)), s)
    end
  else
    let (r, s) := raiseErrorReply env "unsupported kind" None s in
    (Some r, s).

(** The directory of the uploads folder can be read. *)
Definition readable (disk : LocalDisk) (e : DirEntry) : Prop :=
  exists l, ReadDir disk (yangFolder ++ EntryName e ++ "/")%string = inr l.

(** One of the sixteen spellings of ".yang". *)
Definition yangSuffix (e : string) : Prop :=
  exists y a n g,
    e = String "."%char (String y (String a (String n (String g EmptyString))))
    /\ (y = "y"%char \/ y = "Y"%char) /\ (a = "a"%char \/ a = "A"%char)
    /\ (n = "n"%char \/ n = "N"%char) /\ (g = "g"%char \/ g = "G"%char).

(** The entry [list] makes of a key of the "nsp" kind. *)
Definition keyEntry (key : string) : ListResponse :=
  {| ListName := key; Files := [] |}.

(** *** Uploading and unpacking a repository *)

(** [strings.HasSuffix]. *)
Fixpoint HasSuffix (s suffix : string) : bool :=
  (s =? suffix)%string
  || match s with
     | EmptyString => false
     | String _ rest => HasSuffix rest suffix
     end.

(** [strings.TrimSuffix]. *)
Definition TrimSuffix (s suffix : string) : string :=
  if HasSuffix s suffix
  then String.substring 0 (String.length s - String.length suffix) s
  else s.

Fixpoint stripTrailingSlashes (s : string) : string :=
  match s with
  | EmptyString => EmptyString
  | String a rest =>
      let r := stripTrailingSlashes rest in
      if (r =? "")%string && Ascii.eqb a "/"%char then EmptyString
      else String a r
  end.

Fixpoint afterLastSlash (s : string) : string :=
  match s with
  | EmptyString => EmptyString
  | String a rest =>
      if Go.contains "/"%char rest then afterLastSlash rest
      else if Ascii.eqb a "/"%char then rest
      else s
  end.

(** [filepath.Base] with [/] as separator: trailing slashes are dropped,
    the last element is kept; the empty path gives ".", a path of
    slashes only gives "/". *)
Definition Base (path : string) : string :=
  if (path =? "")%string then "."
  else
    let last := afterLastSlash (stripTrailingSlashes path) in
    if (last =? "")%string then "/" else last.

(** What [extractYangFolder] and [saveFile] do to the disk. *)
Inductive FsOp : Type :=
| OpCreate (path : string)
| OpCopyUpload (path : string)
| OpOpenReader (zipPath : string)
| OpMkdirAll (path : string)
| OpOpenFile (fpath : string)
| OpOpenMember (name : string)
| OpCopyMember (fpath name : string)
| OpRemove (path : string).

(** The disk as the upload handlers meet it: whether an operation fails,
    given what was done before; the member names of the archive that
    [zip.OpenReader] opens; and [filepath.Clean], which [filepath.Join]
    applies to the joined path. *)
Record Storage := {
  fails : list FsOp -> FsOp -> option error;
  archiveMembers : list FsOp -> string -> list string;
  Clean : string -> string
}.

Definition perform (st : Storage) (op : FsOp) (done : list FsOp)
  : option error * list FsOp :=
  (fails st done op, done ++ [op]).

(** [fmt.Errorf(format, err)] with the one verb at the end of [format]. *)
Definition Errorf (prefix : string) (err : error) : error :=
  External (prefix ++ Error err).

(** [saveFile]. *)
Definition saveFile (st : Storage) (filepath : string) (done : list FsOp)
  : option error * list FsOp :=
  match perform st (OpCreate filepath) done with
  | (Some err, done) => (Some (Errorf "file creation failed: " err), done)
  | (None, done) =>
      match perform st (OpCopyUpload filepath) done with
      | (Some err, done) => (Some (Errorf "copying file content failed: " err), done)
      | (None, done) => (None, done)
      end
  end.

(** The path a member of the archive is written to (line 133). *)
Definition memberPath (st : Storage) (destFolder name : string) : string :=
  Clean st (destFolder ++ "/" ++ Base name).

(** The loop of lines 130-152 over the members of the archive. *)
Fixpoint extractMembers (st : Storage) (destFolder : string)
  (members : list string) (done : list FsOp) : option error * list FsOp :=
  match members with
  | [] => (None, done)
  | name :: rest =>
      if HasSuffix name ".yang" then
        let fpath := memberPath st destFolder name in
        match perform st (OpOpenFile fpath) done with
        | (Some err, done) =>
            (Some (Errorf "setting yang file write permission failed: " err), done)
        | (None, done) =>
            match perform st (OpOpenMember name) done with
            | (Some err, done) =>
                (Some (Errorf "opening yang file failed: " err), done)
            | (None, done) =>
                match perform st (OpCopyMember fpath name) done with
                | (Some err, done) =>
                    (Some (Errorf "copying file content failed: " err), done)
                | (None, done) => extractMembers st destFolder rest done
                end
            end
        end
      else extractMembers st destFolder rest done
  end.

Definition repoFolder (st : Storage) (filename : string) : string :=
  Clean st (yangFolder ++ TrimSuffix (Base filename) (Ext filename)).

(** [extractYangFolder]. *)
Definition extractYangFolder (st : Storage) (filename : string) (done : list FsOp)
  : option error * list FsOp :=
  let zipPath := (yangFolder ++ filename)%string in
  match perform st (OpOpenReader zipPath) done with
  | (Some err, done) => (Some (Errorf "reading zip file failed: " err), done)
  | (None, done1) =>
      let members := archiveMembers st done zipPath in
      let destFolder := repoFolder st filename in
      match perform st (OpMkdirAll destFolder) done1 with
      | (Some err, done) => (Some (Errorf "creating repo folder failed: " err), done)
      | (None, done) =>
          match extractMembers st destFolder members done with
          | (Some err, done) => (Some err, done)
          | (None, done) => perform st (OpRemove zipPath) done
          end
      end
  end.

(** What [extractMembers] does for the members it writes when nothing
    fails. *)
Definition writeOps (st : Storage) (destFolder name : string) : list FsOp :=
  [OpOpenFile (memberPath st destFolder name);
   OpOpenMember name;
   OpCopyMember (memberPath st destFolder name) name].

Definition isRemove (op : FsOp) : bool :=
  match op with
  | OpRemove _ => true
  | _ => false
  end.

(** [upload]: [form] is what [r.FormFile("file")] gives, the file name of
    the part or an error. *)
Definition upload (st : Storage) (env : Collaborators) (form : error + string)
  (done : list FsOp) (s : srv) : HttpReply * srv * list FsOp :=
  match form with
  | inl err =>
      let (r, s) := raiseError env "retrieving zip file failed" (Some err) s in
      (r, s, done)
  | inr filename =>
      let zipPath := (yangFolder ++ filename)%string in
      match saveFile st zipPath done with
      | (Some err, done) =>
          let (r, s) := raiseError env ("saving zip file failed " ++ filename)%string
                          (Some err) s in
          (r, s, done)
      | (None, done) =>
          match extractYangFolder st filename done with
          | (Some err, done) =>
              let (r, s) := raiseError env ("extracting yang files from " ++ filename
                                        ++ " failed")%string (Some err) s in
              (r, s, done)
          | (None, done) => (writeResponse "success" "Repo uploaded", s, done)
          end
      end
  end.

(** *** Concrete disks and servers for the handlers *)

Definition dirEntry (name : string) : DirEntry := {| EntryName := name; IsDir := true |}.

Definition fileEntry (name : string) : DirEntry := {| EntryName := name; IsDir := false |}.

(** An uploads folder with one repository and three files of its own. *)
Definition sampleDisk : LocalDisk :=
  {| ReadDir := fun path =>
       if (path =? "../uploads/")%string then
         inr [dirEntry "srl"; fileEntry "a.yang"; fileEntry "notes.txt";
              fileEntry "C.YANG"]
       else if (path =? "../uploads/srl/")%string then
         inr [fileEntry "x.yang"; fileEntry "README"; dirEntry "nested"]
       else inl (External "no such directory");
     MapToLower := fun s => s |}.

(** An uploads folder whose second directory cannot be read. *)
Definition brokenDisk : LocalDisk :=
  {| ReadDir := fun path =>
       if (path =? "../uploads/")%string then
         inr [dirEntry "ok"; dirEntry "bad"; dirEntry "worse"; fileEntry "a.yang"]
       else if (path =? "../uploads/ok/")%string then inr []
       else inl (External ("permission denied: " ++ path));
     MapToLower := fun s => s |}.

(** A platform that serves the catalogue [data] up to the page before
    [failFrom] and loses the connection from that page on. *)
Definition flakyCatalogue (data : list IntentType) (failFrom : Z) : Collaborators :=
  {| transport := fun _ _ req =>
       match req with
       | PostSearchIntentTypes _ payload =>
           if PageNumber (Input payload) <? failFrom then
             inr (catalogueResponse data (PageNumber (Input payload))
                    (PageSize (Input payload)))
           else inl (External "timeout")
       | GetIntentType _ _ _ => inl (External "no such intent type")
       end;
     authenticate := specGetToken (fun _ _ => inl (External "bad credentials"));
     revoke := specRevokeToken (fun _ _ => Some (External "timeout"));
     logPrintf := printfExtra |}.

(** A disk on which nothing fails, holding an archive with the members
    [members]; the paths met here are clean as they are. *)
Definition plainStorage (members : list string) : Storage :=
  {| fails := fun _ _ => None;
     archiveMembers := fun _ _ => members;
     Clean := fun path => path |}.

(** A disk that is full: copying a member fails. *)
Definition fullStorage (members : list string) : Storage :=
  {| fails := fun _ op =>
       match op with
       | OpCopyMember _ _ => Some (External "no space left on device")
       | _ => None
       end;
     archiveMembers := fun _ _ => members;
     Clean := fun path => path |}.

Definition sampleArchive : list string :=
  ["repo/"; "repo/README.md"; "repo/models/a.yang"; "repo/models/B.YANG";
   "repo/b.yang"]%string.

(* ------------------------------------------------------------------ *)
(** ** The page loader of the frontend *)

Module Page.

(** A JavaScript string: UTF-16 code units. *)
Definition jsString : Type := list N.

Definition js (s : string) : jsString :=
  map N_of_ascii (list_ascii_of_string s).

Fixpoint strictEq (a b : jsString) : bool :=
  match a, b with
  | [], [] => true
  | x :: a', y :: b' => (x =? y)%N && strictEq a' b'
  | _, _ => false
  end.

(** WhiteSpace and LineTerminator of ECMAScript, all of them single code
    units. *)
Definition isWhiteSpace (c : N) : bool :=
  ((c =? 9) || (c =? 10) || (c =? 11) || (c =? 12) || (c =? 13) || (c =? 32)
   || (c =? 160) || (c =? 5760) || ((8192 <=? c) && (c <=? 8202))
   || (c =? 8232) || (c =? 8233) || (c =? 8239) || (c =? 8287)
   || (c =? 12288) || (c =? 65279))%N.

Fixpoint trimStart (s : jsString) : jsString :=
  match s with
  | [] => []
  | c :: rest => if isWhiteSpace c then trimStart rest else s
  end.

Definition trimEnd (s : jsString) : jsString := rev (trimStart (rev s)).

(** [String.prototype.trim]. *)
Definition trim (s : jsString) : jsString := trimEnd (trimStart s).

(** [URLSearchParams.get]: the first value under the name, else null. *)
Fixpoint get (searchParams : list (jsString * jsString)) (name : jsString)
  : option jsString :=
  match searchParams with
  | [] => None
  | (n, v) :: rest => if strictEq n name then Some v else get rest name
  end.

Record PageData := {
  kind : jsString;
  basename : jsString;
  urlPath : jsString
}.

(** [load] of +page.ts: [inl] is the thrown [error(status, message)]. *)
Definition load (searchParams : list (jsString * jsString))
  (paramKind paramBasename : jsString) : (N * jsString) + PageData :=
  if negb (strictEq paramKind (js "local")) && negb (strictEq paramKind (js "nsp")) then
    inl (404%N, js "Unsupported kind")
  else
    let urlPath :=
      match get searchParams (js "path") with
      | Some v => trim v
      | None => []
      end in
    inr {| kind := paramKind; basename := paramBasename; urlPath := urlPath |}.

End Page.

(* ------------------------------------------------------------------ *)
(** ** Strings: last index, slices and decimal digits *)

Section StringFacts.

Lemma LastIndexByte_lower (s : string) (c : ascii) : -1 <= Go.LastIndexByte s c.
Proof.
  induction s as [|a s IH]; simpl; [lia|].
  destruct (0 <=? Go.LastIndexByte s c) eqn:E.
  - apply Z.leb_le in E. lia.
  - destruct (Ascii.eqb a c); lia.
Qed.

Lemma LastIndexByte_absent (s : string) (c : ascii) :
  Go.LastIndexByte s c = -1 <-> Go.contains c s = false.
Proof.
  induction s as [|a s IH]; simpl; [tauto|].
  pose proof (LastIndexByte_lower s c) as Hlo.
  destruct (0 <=? Go.LastIndexByte s c) eqn:E.
  - apply Z.leb_le in E. split; intros H.
    + lia.
    + apply orb_false_iff in H. destruct H as [_ H]. apply IH in H. lia.
  - apply Z.leb_gt in E.
    assert (Hm : Go.LastIndexByte s c = -1) by lia.
    apply IH in Hm. rewrite Hm, orb_false_r.
    destruct (Ascii.eqb a c); split; intros H; try reflexivity; discriminate.
Qed.

Lemma LastIndexByte_app (n v : string) (c : ascii) :
  Go.contains c v = false ->
  Go.LastIndexByte (n ++ String c v)%string c = Go.len n.
Proof.
  intros Hv. unfold Go.len. induction n as [|a n IH].
  - simpl. apply LastIndexByte_absent in Hv. rewrite Hv. simpl.
    now rewrite Ascii.eqb_refl.
  - cbn [String.append Go.LastIndexByte String.length]. rewrite IH.
    destruct (0 <=? Z.of_nat (String.length n)) eqn:E.
    + lia.
    + apply Z.leb_gt in E. lia.
Qed.

Lemma substring_prefix (n rest : string) :
  String.substring 0 (String.length n) (n ++ rest)%string = n.
Proof.
  induction n as [|a n IH]; simpl.
  - now destruct rest.
  - now rewrite IH.
Qed.

Lemma substring_whole (s : string) :
  String.substring 0 (String.length s) s = s.
Proof.
  induction s as [|a s IH]; simpl; [reflexivity | now rewrite IH].
Qed.

Lemma substring_suffix (n rest : string) (k : nat) :
  String.substring (String.length n) k (n ++ rest)%string = String.substring 0 k rest.
Proof.
  induction n as [|a n IH]; simpl; [reflexivity | exact IH].
Qed.

Lemma length_append (a b : string) :
  String.length (a ++ b)%string = (String.length a + String.length b)%nat.
Proof.
  induction a as [|x a IH]; simpl; [reflexivity | now rewrite IH].
Qed.

(** No decimal rendering contains an underscore. *)
Lemma string_of_uint_no_underscore (d : Decimal.uint) :
  Go.contains "_"%char (NilEmpty.string_of_uint d) = false.
Proof.
  induction d; simpl; auto.
Qed.

Lemma fmt_d_no_underscore (z : Z) : Go.contains "_"%char (Go.fmt_d z) = false.
Proof.
  unfold Go.fmt_d. destruct (Z.to_int z) as [d|d]; simpl.
  - apply string_of_uint_no_underscore.
  - apply string_of_uint_no_underscore.
Qed.

Lemma fmt_d_inj (a b : Z) : Go.fmt_d a = Go.fmt_d b -> a = b.
Proof.
  unfold Go.fmt_d. intros H.
  apply DecimalZ.to_int_inj.
  assert (E : NilEmpty.int_of_string (NilEmpty.string_of_int (Z.to_int a))
              = NilEmpty.int_of_string (NilEmpty.string_of_int (Z.to_int b)))
    by now rewrite H.
  rewrite !NilEmpty.isi in E. now inversion E.
Qed.

(** Cutting [name ++ "_" ++ version] at the last underscore, when the
    version part has none. *)
Lemma splitIntentType_join (name version : string) :
  Go.contains "_"%char version = false ->
  splitIntentType (name ++ "_" ++ version)%string = Some (name, version).
Proof.
  intros Hv. unfold splitIntentType.
  change (name ++ "_" ++ version)%string with (name ++ String "_"%char version)%string.
  rewrite (LastIndexByte_app name version "_"%char Hv).
  unfold Go.len.
  destruct (Z.of_nat (String.length name) =? -1) eqn:E.
  - apply Z.eqb_eq in E. lia.
  - unfold Go.slice_to, Go.slice_from.
    rewrite Nat2Z.id.
    replace (Z.to_nat (Z.of_nat (String.length name) + 1))
      with (String.length (name ++ "_")%string) by (rewrite length_append; simpl; lia).
    rewrite substring_prefix.
    replace (name ++ String "_"%char version)%string
      with ((name ++ "_") ++ version)%string.
    2:{ clear. induction name as [|a n IH]; simpl; [reflexivity | now rewrite IH]. }
    rewrite substring_suffix.
    rewrite (length_append (name ++ "_")%string version).
    replace (String.length (name ++ "_")%string + String.length version
             - String.length (name ++ "_")%string)%nat
      with (String.length version) by lia.
    now rewrite substring_whole.
Qed.

Lemma splitIntentType_none (key : string) :
  splitIntentType key = None <-> Go.contains "_"%char key = false.
Proof.
  unfold splitIntentType.
  destruct (Go.LastIndexByte key "_"%char =? -1) eqn:E.
  - apply Z.eqb_eq in E. apply LastIndexByte_absent in E. tauto.
  - apply Z.eqb_neq in E. split; intros H; [discriminate|].
    apply LastIndexByte_absent in H. contradiction.
Qed.

End StringFacts.

(* ------------------------------------------------------------------ *)
(** ** Keys of intent types *)

Section Keys.

Variable env : Collaborators.

Lemma last_occurrence (s : string) (c : ascii) :
  0 <= Go.LastIndexByte s c ->
  exists n v, s = (n ++ String c v)%string /\ Go.contains c v = false.
Proof.
  induction s as [|a s IH]; simpl; [lia|].
  destruct (0 <=? Go.LastIndexByte s c) eqn:E.
  - intros _. apply Z.leb_le in E.
    destruct (IH E) as (n & v & -> & Hv).
    exists (String a n), v. split; [reflexivity | exact Hv].
  - apply Z.leb_gt in E.
    destruct (Ascii.eqb a c) eqn:Ea; [|lia].
    intros _. apply Ascii.eqb_eq in Ea. subst a.
    exists EmptyString, s. split; [reflexivity|].
    apply LastIndexByte_absent.
    pose proof (LastIndexByte_lower s c). lia.
Qed.

Lemma splitIntentType_some (key name version : string) :
  splitIntentType key = Some (name, version) ->
  key = (name ++ "_" ++ version)%string /\ Go.contains "_"%char version = false.
Proof.
  intros H.
  assert (Hpos : 0 <= Go.LastIndexByte key "_"%char).
  { unfold splitIntentType in H.
    destruct (Go.LastIndexByte key "_"%char =? -1) eqn:E; [discriminate|].
    apply Z.eqb_neq in E.
    pose proof (LastIndexByte_lower key "_"%char). lia. }
  destruct (last_occurrence _ _ Hpos) as (n & v & -> & Hv).
  change (n ++ String "_"%char v)%string with (n ++ "_" ++ v)%string in H.
  rewrite (splitIntentType_join n v Hv) in H.
  inversion H; subst. split; [reflexivity | exact Hv].
Qed.

Lemma intentTypeKey_split (it : IntentType) :
  splitIntentType (intentTypeKey it) = Some (Name it, Go.fmt_d (Version it)).
Proof.
  unfold intentTypeKey. apply splitIntentType_join, fmt_d_no_underscore.
Qed.

Lemma intentTypeKey_inj (a b : IntentType) :
  intentTypeKey a = intentTypeKey b -> a = b.
Proof.
  intros H.
  pose proof (intentTypeKey_split a) as Ha.
  rewrite H, intentTypeKey_split in Ha.
  inversion Ha as [[Hn Hv]]. apply fmt_d_inj in Hv.
  destruct a, b; simpl in *; congruence.
Qed.

Lemma yangModules_events (key name version : string) (s : srv) :
  splitIntentType key = Some (name, version) ->
  events (snd (intentTypeYangModules env key s))
  = events s ++ [EvHTTP (GetIntentType (Ip (nsp s)) name version)].
Proof.
  intros H. unfold intentTypeYangModules, makeHTTPRequest. rewrite H.
  destruct (transport env _ _ _) as [err|resp]; [reflexivity|].
  destruct (negb (StatusCode resp =? 200)); [reflexivity|].
  destruct (asIntentTypeDefinition (Body resp)); reflexivity.
Qed.

Lemma yangModules_invalid_iff (key : string) (s : srv) :
  fst (intentTypeYangModules env key s) = Failed (ErrInvalidIntentType key)
  <-> Go.contains "_"%char key = false.
Proof.
  rewrite <- splitIntentType_none.
  unfold intentTypeYangModules, makeHTTPRequest.
  destruct (splitIntentType key) as [[name version]|]; [|tauto].
  destruct (transport env _ _ _) as [err|resp];
    [simpl; split; discriminate|].
  destruct (negb (StatusCode resp =? 200)); [simpl; split; discriminate|].
  destruct (asIntentTypeDefinition (Body resp)); simpl; split; discriminate.
Qed.

(** C9. [intentTypeYangModules] cuts its key at the last underscore: the
    key built by [intentTypeSearch] from a name and a version splits back
    into that name and the decimal version, which are what the GET asks
    for; a key with an underscore is its name, an underscore and a version
    without underscore; and the call fails with the invalid-format error
    exactly when the key has no underscore, in which case nothing is sent.
    So "foo_bar_2" gives name "foo_bar" and version "2", and "noversion"
    is refused. *)
Theorem yangModules_splits_at_last_underscore
  (s : srv) (key name : string) (version : Z) :
  splitIntentType (intentTypeKey {| Name := name; Version := version |})
    = Some (name, Go.fmt_d version)
  /\ since s (snd (intentTypeYangModules env
                     (intentTypeKey {| Name := name; Version := version |}) s))
     = [EvHTTP (GetIntentType (Ip (nsp s)) name (Go.fmt_d version))]
  /\ (fst (intentTypeYangModules env key s) = Failed (ErrInvalidIntentType key)
      <-> Go.contains "_"%char key = false)
  /\ match splitIntentType key with
     | Some (n, v) =>
         key = (n ++ "_" ++ v)%string /\ Go.contains "_"%char v = false
         /\ since s (snd (intentTypeYangModules env key s))
            = [EvHTTP (GetIntentType (Ip (nsp s)) n v)]
     | None => snd (intentTypeYangModules env key s) = s
     end
  /\ splitIntentType "foo_bar_2" = Some ("foo_bar", "2")
  /\ fst (intentTypeYangModules env "noversion" s)
     = Failed (ErrInvalidIntentType "noversion").
Proof.
  assert (Hsince : forall k n v, splitIntentType k = Some (n, v) ->
            since s (snd (intentTypeYangModules env k s))
            = [EvHTTP (GetIntentType (Ip (nsp s)) n v)]).
  { intros k n v H. unfold since. rewrite (yangModules_events k n v s H).
    rewrite skipn_app, skipn_all, Nat.sub_diag. reflexivity. }
  split; [apply (intentTypeKey_split {| Name := name; Version := version |})|].
  split.
  { apply Hsince.
    apply (intentTypeKey_split {| Name := name; Version := version |}). }
  split; [apply yangModules_invalid_iff|].
  split.
  { destruct (splitIntentType key) as [[n v]|] eqn:E.
    - destruct (splitIntentType_some key n v E) as [Hk Hv].
      repeat split; auto.
    - unfold intentTypeYangModules. now rewrite E. }
  split; reflexivity.
Qed.

End Keys.

(* ------------------------------------------------------------------ *)
(** ** The session handlers *)

Section Session.

Variable env : Collaborators.

Lemma writeResponse_error (msg : string) : code (writeResponse "error" msg) = 500.
Proof.
  unfold writeResponse. simpl. destruct (msg =? "")%string; reflexivity.
Qed.

Lemma raiseError_code (msg : string) (err : option error) (s : srv) :
  code (fst (raiseError env msg err s)) = 500.
Proof.
  destruct err; simpl; apply writeResponse_error.
Qed.

Lemma raiseError_routines (msg : string) (err : option error) (s : srv) :
  routines (snd (raiseError env msg err s)) = routines s.
Proof.
  destruct err; reflexivity.
Qed.

Lemma getToken_routines (s : srv) : routines (snd (getToken env s)) = routines s.
Proof.
  unfold getToken. destruct (authenticate env _ _); reflexivity.
Qed.

Lemma since_app (s s' : srv) (new : list Event) :
  events s' = events s ++ new -> since s s' = new.
Proof.
  intros H. unfold since. rewrite H, skipn_app, skipn_all, Nat.sub_diag.
  reflexivity.
Qed.

Lemma hasEmptyField_test (acc : NspAccess) :
  hasEmptyField acc ->
  (Ip acc =? "")%string || (User acc =? "")%string || (Pass acc =? "")%string = true.
Proof.
  intros [H | [H | H]]; rewrite H; simpl;
    rewrite ?orb_true_r; reflexivity.
Qed.

Lemma connect_missing (ip user pass : option string) (s : srv) :
  hasEmptyField (snd (Decode (Object ip user pass None) (nsp s))) ->
  nspConnect env (Object ip user pass None) s
  = (MissingCredentials,
     setNsp (snd (Decode (Object ip user pass None) (nsp s))) s).
Proof.
  intros H. apply hasEmptyField_test in H.
  unfold nspConnect. cbn [Decode snd] in *. cbn [setNsp nsp].
  rewrite H. reflexivity.
Qed.

(** What the check of line 312 sees of a request: a credential is empty
    once decoded when it was sent empty, or was left out while the one
    stored is empty. *)
Lemma decoded_field_empty (ip user pass : option string) (acc : NspAccess) :
  hasEmptyField (snd (Decode (Object ip user pass None) acc))
  <-> (ip = Some "" \/ (ip = None /\ Ip acc = ""))
      \/ (user = Some "" \/ (user = None /\ User acc = ""))
      \/ (pass = Some "" \/ (pass = None /\ Pass acc = "")).
Proof.
  unfold hasEmptyField. cbn [Decode snd Ip User Pass].
  destruct ip as [i|], user as [u|], pass as [p|]; cbn [orKeep];
    intuition (try discriminate; try congruence).
Qed.


(** C10. The body is decoded into the stored credentials before they are
    checked: when the check fails, the credentials the server holds
    afterwards are the rejected ones, every field the body carries having
    overwritten the stored one, next to the token of the earlier session;
    where they differ from the earlier credentials the session is not what
    it was before the failed call. *)
Theorem connect_stores_rejected_credentials
  (ip user pass : option string) (s : srv) :
  hasEmptyField (snd (Decode (Object ip user pass None) (nsp s))) ->
  fst (nspConnect env (Object ip user pass None) s) = MissingCredentials
  /\ Ip (nsp (snd (nspConnect env (Object ip user pass None) s)))
     = orKeep ip (Ip (nsp s))
  /\ User (nsp (snd (nspConnect env (Object ip user pass None) s)))
     = orKeep user (User (nsp s))
  /\ Pass (nsp (snd (nspConnect env (Object ip user pass None) s)))
     = orKeep pass (Pass (nsp s))
  /\ token (nsp (snd (nspConnect env (Object ip user pass None) s)))
     = token (nsp s)
  /\ (orKeep ip (Ip (nsp s)) <> Ip (nsp s)
      \/ orKeep user (User (nsp s)) <> User (nsp s)
      \/ orKeep pass (Pass (nsp s)) <> Pass (nsp s)
      <-> snd (nspConnect env (Object ip user pass None) s) <> s).
Proof.
  intros H. rewrite (connect_missing ip user pass s H).
  cbn [fst snd Decode setNsp nsp Ip User Pass token].
  repeat (split; [reflexivity|]).
  destruct s as [[i u p t] ev rs]. cbn [nsp Ip User Pass token events routines].
  split.
  - intros Hd Heq. inversion Heq. tauto.
  - intros Hneq.
    destruct (string_dec (orKeep ip i) i) as [Ei|Ei]; [|tauto].
    destruct (string_dec (orKeep user u) u) as [Eu|Eu]; [|tauto].
    destruct (string_dec (orKeep pass p) p) as [Ep|Ep]; [|tauto].
    exfalso. apply Hneq. now rewrite Ei, Eu, Ep.
Qed.

(** *** Disconnect *)

Lemma nonempty_eqb (a : string) : a <> "" -> (a =? "")%string = false.
Proof.
  intros H. now apply String.eqb_neq.
Qed.

(** A server that holds no host refuses to disconnect and calls nobody. *)
Lemma disconnect_when_not_connected (s : srv) :
  Ip (nsp s) = "" -> nspDisconnect env s = (NotConnected, s).
Proof.
  intros H. unfold nspDisconnect. rewrite H. reflexivity.
Qed.

(** C6, as the code has it. For a session that is connected, when
    [revokeToken] fails [nspDisconnect] reports the revoke error and
    returns: it clears nothing itself, so the session it leaves behind is
    the one [revokeToken] left, and the renewal routines stay in the
    pool. *)
Theorem disconnect_failure_leaves_session
  (s : srv) (err : error) (acc : NspAccess) :
  Ip (nsp s) <> "" ->
  isConnected s = true ->
  revoke env (nsp s) (events s) = (Some err, acc) ->
  fst (nspDisconnect env s)
  = httpError (("disconnecting from NSP (" ++ Ip acc ++ ") failed")
               ++ " / " ++ Error err)%string 500
  /\ nsp (snd (nspDisconnect env s)) = acc
  /\ routines (snd (nspDisconnect env s)) = routines s
  /\ transportCalls (snd (nspDisconnect env s))
     = transportCalls s ++ [EvRevokeToken].
Proof.
  intros Hip _ Hrev. unfold nspDisconnect, revokeToken.
  rewrite (nonempty_eqb _ Hip), Hrev.
  cbn [raiseError fst snd setNsp record nsp events routines].
  split.
  { unfold writeResponse. simpl. reflexivity. }
  split; [reflexivity|]. split; [reflexivity|].
  unfold transportCalls, record, setNsp. cbn [events].
  rewrite !filter_app. simpl. now rewrite app_nil_r.
Qed.

(** *** The renewal routine *)

Lemma refreshRenew_events (s : srv) :
  exists rest,
    events (snd (refreshRenew env s))
    = events s ++ renewalStarted :: EvRevokeToken :: rest.
Proof.
  unfold refreshRenew, revokeToken, getToken, logf.
  cbn [record setNsp nsp events routines].
  destruct (revoke env _ _) as [[err|] acc];
    cbn [record setNsp nsp events routines snd].
  - eexists. rewrite <- !app_assoc. simpl. reflexivity.
  - destruct (authenticate env _ _) as [[err|] acc'];
      cbn [record setNsp nsp events routines snd];
      eexists; rewrite <- !app_assoc; simpl; reflexivity.
Qed.

Lemma routine_events (fuel : nat) (s : srv) :
  exists rest, events (snd (tokenRefreshRoutine env fuel s)) = events s ++ rest.
Proof.
  revert s. induction fuel as [|fuel IH]; intros s; simpl.
  - exists []. now rewrite app_nil_r.
  - destruct (refreshHead s) as [d|]; simpl.
    + destruct (refreshRenew env (record (EvSleep d) s)) as [again s1] eqn:E.
      pose proof (refreshRenew_events (record (EvSleep d) s)) as [r1 H1].
      rewrite E in H1. simpl in H1.
      destruct again.
      * destruct (IH s1) as [r2 H2]. rewrite H2, H1.
        eexists. rewrite <- !app_assoc. reflexivity.
      * simpl. rewrite H1. eexists. rewrite <- !app_assoc. reflexivity.
    + exists []. now rewrite app_nil_r.
Qed.

Lemma routine_renews (fuel : nat) (s : srv) (d : Z) :
  refreshHead s = Some d ->
  exists rest,
    events (snd (tokenRefreshRoutine env (S fuel) s))
    = events s ++ EvSleep d :: renewalStarted :: EvRevokeToken :: rest.
Proof.
  intros Hd. simpl. rewrite Hd.
  destruct (refreshRenew env (record (EvSleep d) s)) as [again s1] eqn:E.
  pose proof (refreshRenew_events (record (EvSleep d) s)) as [r1 H1].
  rewrite E in H1. simpl in H1.
  destruct again.
  - destruct (routine_events fuel s1) as [r2 H2]. rewrite H2, H1.
    eexists. rewrite <- !app_assoc. simpl. reflexivity.
  - simpl. rewrite H1. eexists. rewrite <- !app_assoc. simpl. reflexivity.
Qed.

(** C5, as the code has it. The renewal routine returns without a revoke
    or a re-acquisition exactly when the time-to-live of the token is 0;
    for any other time-to-live, those from 1 to 10 among them, it sleeps
    for the time-to-live less ten seconds (not at all when that is not
    positive) and then attempts the revoke. *)
Theorem refresh_idle_iff_ttl_zero (s : srv) (fuel : nat) :
  (ExpiresIn (token (nsp s)) = 0
   <-> tokenRefreshRoutine env (S fuel) s = (Returned tt, s))
  /\ (ExpiresIn (token (nsp s)) <> 0
      <-> exists rest,
            since s (snd (tokenRefreshRoutine env (S fuel) s))
            = EvSleep (sleepFor (ExpiresIn (token (nsp s))))
                :: renewalStarted :: EvRevokeToken :: rest).
Proof.
  assert (Hzero : ExpiresIn (token (nsp s)) = 0 ->
                  tokenRefreshRoutine env (S fuel) s = (Returned tt, s)).
  { intros H. simpl. unfold refreshHead. now rewrite H. }
  assert (Hnz : ExpiresIn (token (nsp s)) <> 0 ->
                exists rest,
                  since s (snd (tokenRefreshRoutine env (S fuel) s))
                  = EvSleep (sleepFor (ExpiresIn (token (nsp s))))
                      :: renewalStarted :: EvRevokeToken :: rest).
  { intros H.
    assert (Hd : refreshHead s = Some (sleepFor (ExpiresIn (token (nsp s))))).
    { unfold refreshHead. apply Z.eqb_neq in H. now rewrite H. }
    destruct (routine_renews fuel s _ Hd) as [rest Hr].
    exists rest. now apply since_app. }
  assert (Hidle : since s s = []).
  { apply since_app. now rewrite app_nil_r. }
  split; split.
  - exact Hzero.
  - intros Hrun.
    destruct (Z.eq_dec (ExpiresIn (token (nsp s))) 0) as [E|E]; [exact E|].
    destruct (Hnz E) as [rest Hr]. rewrite Hrun in Hr. simpl in Hr.
    rewrite Hidle in Hr. discriminate.
  - exact Hnz.
  - intros [rest Hr] E. rewrite (Hzero E) in Hr. simpl in Hr.
    rewrite Hidle in Hr. discriminate.
Qed.

(** *** Renewal routines and repeated connects *)

Lemma connect_routines (body : ConnectBody) (s : srv) :
  routines (snd (nspConnect env body s))
  = if code (fst (nspConnect env body s)) =? 200
    then routines s ++ [AtLoopHead] else routines s.
Proof.
  unfold nspConnect.
  destruct (Decode body (nsp s)) as [[err|] acc].
  - rewrite raiseError_code, raiseError_routines. reflexivity.
  - destruct ((Ip (nsp (setNsp acc s)) =? "")%string
              || (User (nsp (setNsp acc s)) =? "")%string
              || (Pass (nsp (setNsp acc s)) =? "")%string).
    + rewrite raiseError_code, raiseError_routines. reflexivity.
    + pose proof (getToken_routines (setNsp acc s)) as Hg.
      destruct (getToken env (setNsp acc s)) as [[err|] s1]; simpl in Hg.
      * rewrite raiseError_code, raiseError_routines. exact Hg.
      * simpl. now rewrite Hg.
Qed.

(** C7, as the code has it. Every connect that succeeds starts one more
    renewal routine and stops none: after a run of connects that all
    succeed the pool holds the routines it held before and one new
    routine for each connect. *)
Theorem connects_spawn_one_routine_each (bodies : list ConnectBody) (s : srv) :
  Forall (fun reply => code reply = 200) (fst (connectAll env bodies s)) ->
  routines (snd (connectAll env bodies s))
  = routines s ++ repeat AtLoopHead (List.length bodies).
Proof.
  revert s. induction bodies as [|body rest IH]; intros s H; simpl.
  - now rewrite app_nil_r.
  - simpl in H.
    pose proof (connect_routines body s) as Hc.
    destruct (nspConnect env body s) as [reply s1]. simpl in Hc.
    specialize (IH s1).
    destruct (connectAll env rest s1) as [replies s2]. simpl in *.
    inversion H as [|? ? Hreply Hrest]; subst.
    rewrite Hreply in Hc. simpl in Hc.
    rewrite (IH Hrest), Hc, <- app_assoc. reflexivity.
Qed.

End Session.

(* ------------------------------------------------------------------ *)
(** ** The paginated search *)

Section Search.

Variable env : Collaborators.

Lemma wrap64_id (z : Z) : Go.int_range z -> Go.wrap64 z = z.
Proof.
  unfold Go.int_range, Go.wrap64. intros H.
  change (2 ^ 64) with (2 * 2 ^ 63).
  rewrite Z.mod_small; lia.
Qed.

Lemma morePages_iff (out : IntentTypeList) (pageSize : Z) :
  morePages out pageSize = true
  <-> OutPageSize out = pageSize /\ TotalCount out > pageSize.
Proof.
  unfold morePages. rewrite andb_true_iff, Z.eqb_eq, Z.gtb_gt. tauto.
Qed.

(** *** One level of the recursion *)

Lemma search_fails (fuel : nat) (p P : Z) (s : srv) :
  decodedPage (transport env (nsp s) (events s) (searchRequest s p P)) = None ->
  exists err,
    intentTypeSearch env (S fuel) p P s
    = (Failed err, record (EvHTTP (searchRequest s p P)) s).
Proof.
  simpl. unfold decodedPage, makeHTTPRequest.
  destruct (transport env _ _ _) as [err|resp]; [eauto|].
  destruct (negb (StatusCode resp =? 200)); [eauto|].
  destruct (asIntentTypeList (Body resp)); [eauto | discriminate].
Qed.

Lemma search_last_page (fuel : nat) (p P : Z) (s : srv) (out : IntentTypeList) :
  decodedPage (transport env (nsp s) (events s) (searchRequest s p P)) = Some out ->
  morePages out P = false ->
  intentTypeSearch env (S fuel) p P s
  = (Returned (map intentTypeKey (IntentTypes out)),
     record (EvHTTP (searchRequest s p P)) s).
Proof.
  simpl. unfold decodedPage, makeHTTPRequest.
  destruct (transport env _ _ _) as [err|resp]; [discriminate|].
  destruct (negb (StatusCode resp =? 200)); [discriminate|].
  destruct (asIntentTypeList (Body resp)) as [err|out']; [discriminate|].
  intros [= ->] Hm. now rewrite Hm.
Qed.

Lemma search_next_page (fuel : nat) (p P : Z) (s : srv) (out : IntentTypeList) :
  decodedPage (transport env (nsp s) (events s) (searchRequest s p P)) = Some out ->
  morePages out P = true ->
  intentTypeSearch env (S fuel) p P s
  = match intentTypeSearch env fuel (Go.wrap64 (p + 1)) P
            (record (EvHTTP (searchRequest s p P)) s) with
    | (Returned nextPage, s2) =>
        (Returned (map intentTypeKey (IntentTypes out) ++ nextPage), s2)
    | (Failed err, s2) => (Failed (ErrPaginatedIntentTypes err), s2)
    | (OutOfFuel, s2) => (OutOfFuel, s2)
    end.
Proof.
  simpl. unfold decodedPage, makeHTTPRequest.
  destruct (transport env _ _ _) as [err|resp]; [discriminate|].
  destruct (negb (StatusCode resp =? 200)); [discriminate|].
  destruct (asIntentTypeList (Body resp)) as [err|out']; [discriminate|].
  intros [= ->] Hm. now rewrite Hm.
Qed.

(** The three cases, for proofs by cases on the first answer. *)
Lemma search_cases (p P : Z) (s : srv) :
  decodedPage (transport env (nsp s) (events s) (searchRequest s p P)) = None
  \/ (exists out,
        decodedPage (transport env (nsp s) (events s) (searchRequest s p P))
        = Some out /\ morePages out P = false)
  \/ (exists out,
        decodedPage (transport env (nsp s) (events s) (searchRequest s p P))
        = Some out /\ morePages out P = true).
Proof.
  destruct (decodedPage _) as [out|]; [|now left].
  destruct (morePages out P) eqn:E; eauto.
Qed.

(** *** The history of a search *)

Lemma search_events (fuel : nat) (p P : Z) (s : srv) :
  exists rest, events (snd (intentTypeSearch env fuel p P s)) = events s ++ rest.
Proof.
  revert p s. induction fuel as [|fuel IH]; intros p s.
  - exists []. simpl. now rewrite app_nil_r.
  - destruct (search_cases p P s) as [H | [(out & H & Hm) | (out & H & Hm)]].
    + destruct (search_fails fuel p P s H) as [err ->]. simpl. eauto.
    + rewrite (search_last_page fuel p P s out H Hm). simpl. eauto.
    + rewrite (search_next_page fuel p P s out H Hm).
      destruct (IH (Go.wrap64 (p + 1)) (record (EvHTTP (searchRequest s p P)) s))
        as [rest Hr].
      destruct (intentTypeSearch env fuel _ P _) as [[next|err|] s2];
        simpl in *; rewrite Hr, <- app_assoc; eauto.
Qed.

Lemma search_first_event (fuel : nat) (p P : Z) (s : srv) :
  exists rest,
    events (snd (intentTypeSearch env (S fuel) p P s))
    = events s ++ EvHTTP (searchRequest s p P) :: rest.
Proof.
  destruct (search_cases p P s) as [H | [(out & H & Hm) | (out & H & Hm)]].
  - destruct (search_fails fuel p P s H) as [err ->]. simpl. eauto.
  - rewrite (search_last_page fuel p P s out H Hm). simpl. eauto.
  - rewrite (search_next_page fuel p P s out H Hm).
    destruct (search_events fuel (Go.wrap64 (p + 1)) P
                (record (EvHTTP (searchRequest s p P)) s)) as [rest Hr].
    destruct (intentTypeSearch env fuel _ P _) as [[next|err|] s2];
      simpl in *; rewrite Hr, <- app_assoc; simpl; eauto.
Qed.

Lemma afterFetches_events (k : nat) (p P : Z) (s : srv) :
  exists new,
    events (fst (afterFetches k p P s)) = events s ++ new
    /\ List.length new = k.
Proof.
  revert p s. induction k as [|k IH]; intros p s; simpl.
  - exists []. now rewrite app_nil_r.
  - destruct (IH (Go.wrap64 (p + 1)) (record (EvHTTP (searchRequest s p P)) s))
      as (new & Hn & Hl).
    exists (EvHTTP (searchRequest s p P) :: new).
    rewrite Hn. simpl. rewrite <- app_assoc. simpl. auto.
Qed.

(** C1, as the code has it. The search fetches page after page for as
    long as each answer is a 200 that decodes and reports the requested
    page-size and a total-count above it; when the answer to fetch number
    [n] (from 0) is the first that does not, the search ends after
    [n + 1] fetches. The number of fetches is set by the answers alone. *)
Theorem search_ends_with_first_refusal (n fuel : nat) (p P : Z) (s : srv) :
  (forall k, (k < n)%nat -> continues (responseAt env k p P s) P = true) ->
  continues (responseAt env n p P s) P = false ->
  (n < fuel)%nat ->
  fst (intentTypeSearch env fuel p P s) <> OutOfFuel
  /\ snd (intentTypeSearch env fuel p P s) = fst (afterFetches (S n) p P s)
  /\ List.length (since s (snd (intentTypeSearch env fuel p P s))) = S n.
Proof.
  intros Hgo Hstop Hfuel.
  assert (Hmain : fst (intentTypeSearch env fuel p P s) <> OutOfFuel
                  /\ snd (intentTypeSearch env fuel p P s)
                     = fst (afterFetches (S n) p P s)).
  { revert fuel p s Hgo Hstop Hfuel.
    induction n as [|n IH]; intros fuel p s Hgo Hstop Hfuel;
      (destruct fuel as [|fuel]; [lia|]).
    - unfold responseAt, continues in Hstop. simpl in Hstop.
      destruct (search_cases p P s) as [H | [(out & H & Hm) | (out & H & Hm)]].
      + destruct (search_fails fuel p P s H) as [err ->]. simpl.
        split; [discriminate | reflexivity].
      + rewrite (search_last_page fuel p P s out H Hm). simpl.
        split; [discriminate | reflexivity].
      + rewrite H, Hm in Hstop. discriminate.
    - pose proof (Hgo 0%nat ltac:(lia)) as H0.
      unfold responseAt, continues in H0. simpl in H0.
      destruct (decodedPage _) as [out|] eqn:H; [|discriminate].
      rewrite (search_next_page fuel p P s out H H0).
      destruct (IH fuel (Go.wrap64 (p + 1))
                  (record (EvHTTP (searchRequest s p P)) s)) as [Hr Hs].
      + intros k Hk. apply (Hgo (S k)). lia.
      + exact Hstop.
      + lia.
      + destruct (intentTypeSearch env fuel _ P _) as [[next|err|] s2];
          simpl in *; (split; [congruence | exact Hs]). }
  destruct Hmain as [Hr Hs]. repeat split; auto.
  rewrite Hs.
  destruct (afterFetches_events (S n) p P s) as (new & Hn & Hl).
  now rewrite (since_app s _ new Hn).
Qed.

(** C2, as the code has it. After a page that is a 200 and decodes, the
    search asks for the next page exactly when the reported page-size is
    the requested one and the reported total-count is above the requested
    page size; otherwise it returns the keys of the page. The number of
    pairs fetched so far plays no part. *)
Theorem search_next_page_iff (fuel : nat) (p P : Z) (s : srv) (out : IntentTypeList) :
  decodedPage (transport env (nsp s) (events s) (searchRequest s p P)) = Some out ->
  (nth_error (since s (snd (intentTypeSearch env (S (S fuel)) p P s))) 1
   = Some (EvHTTP (searchRequest s (Go.wrap64 (p + 1)) P))
   <-> OutPageSize out = P /\ TotalCount out > P)
  /\ (~ (OutPageSize out = P /\ TotalCount out > P)
      <-> intentTypeSearch env (S (S fuel)) p P s
          = (Returned (map intentTypeKey (IntentTypes out)),
             record (EvHTTP (searchRequest s p P)) s)).
Proof.
  intros H. rewrite <- morePages_iff.
  destruct (morePages out P) eqn:Hm.
  - assert (Hev : exists rest,
              since s (snd (intentTypeSearch env (S (S fuel)) p P s))
              = EvHTTP (searchRequest s p P)
                  :: EvHTTP (searchRequest s (Go.wrap64 (p + 1)) P) :: rest).
    { rewrite (search_next_page (S fuel) p P s out H Hm).
      destruct (search_first_event fuel (Go.wrap64 (p + 1)) P
                  (record (EvHTTP (searchRequest s p P)) s)) as [rest Hr].
      exists rest. apply since_app.
      destruct (intentTypeSearch env (S fuel) _ P _) as [[next|err|] s2];
        simpl in *; rewrite Hr, <- app_assoc; reflexivity. }
    destruct Hev as [rest Hev]. rewrite Hev. cbn [nth_error].
    split; [tauto|]. split; [intros Hn; now elim Hn|].
    intros Hrun. rewrite Hrun in Hev. simpl in Hev.
    rewrite (since_app s (record (EvHTTP (searchRequest s p P)) s)
               [EvHTTP (searchRequest s p P)] eq_refl) in Hev.
    discriminate.
  - rewrite (search_last_page (S fuel) p P s out H Hm). cbn [snd].
    rewrite (since_app s (record (EvHTTP (searchRequest s p P)) s)
               [EvHTTP (searchRequest s p P)] eq_refl).
    cbn [nth_error].
    split; split; try discriminate; auto.
Qed.

(** C4, as the code has it. Neither operation looks at the session: with
    no token held, the search still sends its request, and the module
    fetch, given a key with an underscore, still sends its GET. *)
Theorem catalogue_calls_transport_when_disconnected
  (fuel : nat) (p P : Z) (s : srv) (key name version : string) :
  isConnected s = false ->
  splitIntentType key = Some (name, version) ->
  (exists rest,
     since s (snd (intentTypeSearch env (S fuel) p P s))
     = EvHTTP (searchRequest s p P) :: rest)
  /\ since s (snd (intentTypeYangModules env key s))
     = [EvHTTP (GetIntentType (Ip (nsp s)) name version)].
Proof.
  intros _ Hkey. split.
  - destruct (search_first_event fuel p P s) as [rest Hr].
    exists rest. now apply since_app.
  - apply since_app. now apply yangModules_events.
Qed.

End Search.

(* ------------------------------------------------------------------ *)
(** ** Searching a catalogue served in pages *)

Section Catalogue.

Variable env : Collaborators.
Variable data : list IntentType.
Variable P : Z.

Hypothesis serves : servesCatalogue env data P.
Hypothesis pageSize_range : 1 <= P < 2 ^ 63.
Hypothesis count_range : Z.of_nat (List.length data) < 2 ^ 63.

Lemma catalogue_page (k : Z) (s : srv) :
  decodedPage (transport env (nsp s) (events s) (searchRequest s k P))
  = Some {| OutPageSize := Z.of_nat (List.length (firstn (Z.to_nat P) (entriesFrom data P k)));
            TotalCount := Z.of_nat (List.length data);
            IntentTypes := firstn (Z.to_nat P) (entriesFrom data P k) |}.
Proof.
  unfold searchRequest. rewrite serves. reflexivity.
Qed.

Lemma entriesFrom_next (k : Z) :
  0 <= k -> entriesFrom data P (k + 1) = skipn (Z.to_nat P) (entriesFrom data P k).
Proof.
  intros Hk. unfold entriesFrom. rewrite skipn_skipn. f_equal.
  rewrite Z.mul_add_distr_r, Z.mul_1_l, Z2Nat.inj_add; nia.
Qed.

Lemma entriesFrom_length (k : Z) :
  0 <= k ->
  List.length (entriesFrom data P k) = (List.length data - Z.to_nat (k * P))%nat.
Proof.
  intros _. unfold entriesFrom. apply length_skipn.
Qed.

Lemma search_from_page (fuel : nat) :
  forall (k : Z) (s : srv),
    0 <= k ->
    k * P <= Z.of_nat (List.length data) ->
    (List.length (entriesFrom data P k) < fuel)%nat ->
    fst (intentTypeSearch env fuel k P s) = Returned (map intentTypeKey (entriesFrom data P k)).
Proof.
  induction fuel as [|fuel IH]; intros k s Hk Hin Hfuel; [lia|].
  pose proof (catalogue_page k s) as Hpage.
  pose proof (entriesFrom_length k Hk) as Hlen.
  set (out := {| OutPageSize := _ |}) in Hpage.
  destruct (morePages out P) eqn:Hm.
  - rewrite (search_next_page env fuel k P s out Hpage Hm).
    apply morePages_iff in Hm. destruct Hm as [Hsize Htotal].
    subst out. cbn [OutPageSize TotalCount IntentTypes] in *.
    rewrite length_firstn in Hsize.
    assert (Hfull : (Z.to_nat P <= List.length (entriesFrom data P k))%nat) by lia.
    assert (Hnext : (k + 1) * P <= Z.of_nat (List.length data)).
    { rewrite Z.mul_add_distr_r, Z.mul_1_l. lia. }
    assert (Hrange : Go.int_range (k + 1)).
    { unfold Go.int_range. split; [lia | nia]. }
    rewrite (wrap64_id _ Hrange).
    specialize (IH (k + 1) (record (EvHTTP (searchRequest s k P)) s)
                   ltac:(lia) Hnext).
    rewrite (entriesFrom_next k Hk) in IH.
    assert (Hless : (List.length (skipn (Z.to_nat P) (entriesFrom data P k)) < fuel)%nat).
    { rewrite length_skipn. lia. }
    specialize (IH Hless).
    destruct (intentTypeSearch env fuel (k + 1) P _) as [[next|err|] s2];
      simpl in IH; try discriminate.
    inversion IH; subst. simpl.
    now rewrite <- map_app, firstn_skipn.
  - rewrite (search_last_page env fuel k P s out Hpage Hm).
    subst out. unfold morePages in Hm.
    cbn [OutPageSize TotalCount IntentTypes fst] in *.
    rewrite length_firstn in Hm.
    rewrite firstn_all2; [reflexivity|].
    apply andb_false_iff in Hm. destruct Hm as [Hm | Hm].
    + apply Z.eqb_neq in Hm. lia.
    + rewrite Z.gtb_ltb in Hm. apply Z.ltb_ge in Hm. lia.
Qed.


End Catalogue.

(* ------------------------------------------------------------------ *)
(** ** The properties on concrete servers *)

(** *** A server that never reports the last page *)

Lemma alwaysMore_page (p : Z) (s : srv) :
  decodedPage (transport alwaysMore (nsp s) (events s) (searchRequest s p 1))
  = Some {| OutPageSize := 1; TotalCount := 2; IntentTypes := [] |}.
Proof.
  reflexivity.
Qed.

Lemma alwaysMore_runs_out (fuel : nat) :
  forall (p : Z) (s : srv),
    fst (intentTypeSearch alwaysMore fuel p 1 s) = OutOfFuel
    /\ exists new,
         events (snd (intentTypeSearch alwaysMore fuel p 1 s)) = events s ++ new
         /\ List.length new = fuel.
Proof.
  induction fuel as [|fuel IH]; intros p s.
  - simpl. split; [reflexivity|]. exists []. now rewrite app_nil_r.
  - rewrite (search_next_page alwaysMore fuel p 1 s _ (alwaysMore_page p s) eq_refl).
    destruct (IH (Go.wrap64 (p + 1)) (record (EvHTTP (searchRequest s p 1)) s))
      as (Hout & new & Hev & Hlen).
    destruct (intentTypeSearch alwaysMore fuel _ 1 _) as [[next|err|] s2];
      simpl in Hout; try discriminate.
    simpl in *. split; [reflexivity|].
    exists (EvHTTP (searchRequest s p 1) :: new).
    rewrite Hev, <- app_assoc. simpl. auto.
Qed.

(** C1 fails: against [alwaysMore] the search returns for no budget of
    recursion, and the number of its fetches passes every bound. *)
Lemma search_never_ends_on_alwaysMore :
  ~ (exists fuel, fst (intentTypeSearch alwaysMore fuel 0 1 zeroSrv) <> OutOfFuel)
  /\ ~ (exists bound, forall fuel,
          (List.length
             (since zeroSrv (snd (intentTypeSearch alwaysMore fuel 0 1 zeroSrv)))
           <= bound)%nat).
Proof.
  split.
  - intros [fuel H]. apply H. apply alwaysMore_runs_out.
  - intros [bound H]. specialize (H (S bound)).
    destruct (alwaysMore_runs_out (S bound) 0 zeroSrv) as (_ & new & Hev & Hlen).
    rewrite (since_app zeroSrv _ new Hev), Hlen in H. lia.
Qed.

(** C1 on a catalogue of seven served in pages of three: the third
    answer is the first to end the search, which makes three fetches. *)
Lemma search_ends_with_first_refusal_witness :
  (forall k, (k < 2)%nat ->
     continues (responseAt (platform 3600 None sevenTypes) k 0 3 zeroSrv) 3 = true)
  /\ continues (responseAt (platform 3600 None sevenTypes) 2 0 3 zeroSrv) 3 = false
  /\ (2 < 5)%nat
  /\ fst (intentTypeSearch (platform 3600 None sevenTypes) 5 0 3 zeroSrv) <> OutOfFuel
  /\ snd (intentTypeSearch (platform 3600 None sevenTypes) 5 0 3 zeroSrv)
     = fst (afterFetches 3 0 3 zeroSrv)
  /\ List.length
       (since zeroSrv (snd (intentTypeSearch (platform 3600 None sevenTypes) 5 0 3 zeroSrv)))
     = 3%nat.
Proof.
  assert (H1 : forall k, (k < 2)%nat ->
            continues (responseAt (platform 3600 None sevenTypes) k 0 3 zeroSrv) 3
            = true).
  { intros k Hk. destruct k as [|[|k]]; [reflexivity | reflexivity | lia]. }
  assert (H2 : continues (responseAt (platform 3600 None sevenTypes) 2 0 3 zeroSrv) 3
               = false) by reflexivity.
  assert (H3 : (2 < 5)%nat) by lia.
  split; [exact H1|]. split; [exact H2|]. split; [exact H3|].
  exact (search_ends_with_first_refusal (platform 3600 None sevenTypes)
           2 5 0 3 zeroSrv H1 H2 H3).
Defined.

(** *** A catalogue whose size is a multiple of the page size *)

(** C2 fails: six intent types in pages of three. After page 1 the pairs
    fetched are six, not below the total-count of six, and the search
    still asks for page 2. *)
Lemma running_total_not_consulted :
  ~ (nth_error
       (since zeroSrv
          (snd (intentTypeSearch (platform 3600 None sixTypes) 5 0 3 zeroSrv))) 2
     = Some (EvHTTP (searchRequest zeroSrv 2 3))
     <-> specContinues (platform 3600 None sixTypes) 1 0 3 zeroSrv = true).
Proof.
  intros [H _]. specialize (H eq_refl). vm_compute in H. discriminate H.
Qed.

(** The loop of the spec stops after page 1 of that catalogue, with the
    same keys. *)
Example running_total_loop_stops_early :
  searchByRunningTotal (platform 3600 None sixTypes) 5 0 3 0 zeroSrv
  = (Returned ["a_1"; "b_1"; "c_1"; "d_1"; "e_1"; "f_1"]%string,
     fst (afterFetches 2 0 3 zeroSrv))
  /\ intentTypeSearch (platform 3600 None sixTypes) 5 0 3 zeroSrv
     = (Returned ["a_1"; "b_1"; "c_1"; "d_1"; "e_1"; "f_1"]%string,
        fst (afterFetches 3 0 3 zeroSrv)).
Proof.
  split; reflexivity.
Qed.

Lemma search_next_page_iff_witness :
  decodedPage (transport (platform 3600 None sixTypes) (nsp zeroSrv) (events zeroSrv)
                 (searchRequest zeroSrv 1 3))
  = Some {| OutPageSize := 3; TotalCount := 6;
            IntentTypes := intentTypesNamed ["d"; "e"; "f"]%string |}
  /\ (nth_error
        (since zeroSrv
           (snd (intentTypeSearch (platform 3600 None sixTypes) 2 1 3 zeroSrv))) 1
      = Some (EvHTTP (searchRequest zeroSrv (Go.wrap64 (1 + 1)) 3))
      <-> 3 = 3 /\ 6 > 3).
Proof.
  split; [reflexivity|].
  exact (proj1 (search_next_page_iff (platform 3600 None sixTypes) 0 1 3 zeroSrv
                  {| OutPageSize := 3; TotalCount := 6;
                     IntentTypes := intentTypesNamed ["d"; "e"; "f"]%string |}
                  eq_refl)).
Defined.

(** *** Seven intent types in pages of three *)

Lemma platform_serves (ttl : Z) (answer : option error) (data : list IntentType)
  (pageSize : Z) :
  servesCatalogue (platform ttl answer data) data pageSize.
Proof.
  intros acc history host pageNumber. reflexivity.
Qed.


(** *** A search without a session *)

(** C4 fails: with no session the search of a served catalogue succeeds
    after one call to the transport, and the module fetch sends its GET. *)
Lemma catalogue_reached_without_session :
  ~ (isConnected zeroSrv = false ->
     (exists err,
        fst (intentTypeSearch (platform 3600 None sixTypes) 2 0 10 zeroSrv)
        = Failed err)
     /\ transportCalls
          (snd (intentTypeSearch (platform 3600 None sixTypes) 2 0 10 zeroSrv)) = []
     /\ transportCalls
          (snd (intentTypeYangModules (platform 3600 None sixTypes) "foo_bar_2" zeroSrv))
        = []).
Proof.
  intros H. destruct (H eq_refl) as [[err Herr] _].
  vm_compute in Herr. discriminate Herr.
Qed.

Lemma catalogue_calls_transport_when_disconnected_witness :
  isConnected zeroSrv = false
  /\ splitIntentType "foo_bar_2" = Some ("foo_bar", "2")%string
  /\ (exists rest,
        since zeroSrv (snd (intentTypeSearch (platform 3600 None sixTypes) 1 0 10 zeroSrv))
        = EvHTTP (searchRequest zeroSrv 0 10) :: rest)
  /\ since zeroSrv
       (snd (intentTypeYangModules (platform 3600 None sixTypes) "foo_bar_2" zeroSrv))
     = [EvHTTP (GetIntentType (Ip (nsp zeroSrv)) "foo_bar" "2")].
Proof.
  split; [reflexivity|]. split; [reflexivity|].
  exact (catalogue_calls_transport_when_disconnected
           (platform 3600 None sixTypes) 0 0 10 zeroSrv "foo_bar_2" "foo_bar" "2"
           eq_refl eq_refl).
Defined.

(** *** Connect requests with an empty field *)



(** What that request does. *)
Example connect_with_host_only :
  nspConnect (platform 3600 None [])
    (Object (Some "10.0.0.9"%string) None None None) connectedSrv
  = ({| code := 200; text := "NSP connected" |},
     {| nsp := {| Ip := "10.0.0.9"; User := "admin"; Pass := "pw";
                  token := {| AccessToken := "secret"; ExpiresIn := 3600 |} |};
        events := [EvGetToken];
        routines := [AtLoopHead; AtLoopHead] |}).
Proof.
  reflexivity.
Qed.

(** A request with an empty host and a member of the wrong type is
    answered with the decode error, not with the missing credentials
    one; it calls nobody either. *)
Example connect_mistyped_and_empty :
  fst (nspConnect (platform 3600 None [])
         (Object (Some ""%string) (Some "admin"%string) None
            (Some (External "json: cannot unmarshal number into Go struct field")))
         zeroSrv)
  = httpError ("decoding NSP connect request failed / "
               ++ "json: cannot unmarshal number into Go struct field") 500
  /\ transportCalls
       (snd (nspConnect (platform 3600 None [])
               (Object (Some ""%string) (Some "admin"%string) None
                  (Some (External "json: cannot unmarshal number into Go struct field")))
               zeroSrv))
     = [].
Proof.
  split; reflexivity.
Qed.

(** A field the body leaves out keeps its stored value, which is then
    the one checked: on a connected session a body that carries only a
    new host is not refused for missing credentials. *)
Example connect_checks_stored_fields :
  fst (nspConnect (platform 3600 None [])
         (Object (Some "10.0.0.9"%string) None None None) connectedSrv)
  = {| code := 200; text := "NSP connected" |}.
Proof.
  reflexivity.
Qed.

Lemma connect_stores_rejected_credentials_witness :
  hasEmptyField
    (snd (Decode (Object (Some "10.0.0.9"%string) (Some "root"%string)
                    (Some ""%string) None) (nsp connectedSrv)))
  /\ nsp (snd (nspConnect (platform 3600 None [])
                 (Object (Some "10.0.0.9"%string) (Some "root"%string)
                    (Some ""%string) None) connectedSrv))
     = {| Ip := "10.0.0.9"; User := "root"; Pass := "";
          token := {| AccessToken := "secret"; ExpiresIn := 3600 |} |}
  /\ snd (nspConnect (platform 3600 None [])
            (Object (Some "10.0.0.9"%string) (Some "root"%string)
               (Some ""%string) None) connectedSrv)
     <> connectedSrv.
Proof.
  assert (H : hasEmptyField
                (snd (Decode (Object (Some "10.0.0.9"%string) (Some "root"%string)
                                (Some ""%string) None) (nsp connectedSrv)))).
  { right. right. reflexivity. }
  split; [exact H|]. split; [reflexivity|].
  destruct (connect_stores_rejected_credentials (platform 3600 None [])
              (Some "10.0.0.9"%string) (Some "root"%string) (Some ""%string)
              connectedSrv H) as (_ & _ & _ & _ & _ & Hchanged).
  apply Hchanged. left. discriminate.
Defined.

(** *** A revoke call that fails *)

(** C6 fails: when the revoke endpoint answers with an error, the session
    after [nspDisconnect] still holds its token and counts as connected. *)
Lemma disconnect_failure_stays_connected :
  ~ (isConnected
       (snd (nspDisconnect (platform 3600 (Some (External "timeout")) [])
               connectedSrv)) = false
     /\ token (nsp (snd (nspDisconnect
                           (platform 3600 (Some (External "timeout")) [])
                           connectedSrv))) = noToken).
Proof.
  intros [H _]. vm_compute in H. discriminate H.
Qed.

Lemma disconnect_failure_leaves_session_witness :
  Ip (nsp connectedSrv) <> ""%string
  /\ isConnected connectedSrv = true
  /\ revoke (platform 3600 (Some (External "timeout")) [])
       (nsp connectedSrv) (events connectedSrv)
     = (Some (External "timeout"), nsp connectedSrv)
  /\ fst (nspDisconnect (platform 3600 (Some (External "timeout")) []) connectedSrv)
     = httpError "disconnecting from NSP (10.0.0.1) failed / timeout" 500
  /\ nsp (snd (nspDisconnect (platform 3600 (Some (External "timeout")) [])
                 connectedSrv))
     = nsp connectedSrv
  /\ routines (snd (nspDisconnect (platform 3600 (Some (External "timeout")) [])
                      connectedSrv))
     = routines connectedSrv
  /\ transportCalls (snd (nspDisconnect
                            (platform 3600 (Some (External "timeout")) [])
                            connectedSrv))
     = transportCalls connectedSrv ++ [EvRevokeToken].
Proof.
  assert (H1 : Ip (nsp connectedSrv) <> ""%string) by discriminate.
  split; [exact H1|]. split; [reflexivity|]. split; [reflexivity|].
  exact (disconnect_failure_leaves_session
           (platform 3600 (Some (External "timeout")) [])
           connectedSrv (External "timeout") (nsp connectedSrv)
           H1 eq_refl eq_refl).
Defined.

(** *** Tokens that live ten seconds or less *)

(** C5 fails: with a token living five seconds the routine does not
    sleep and attempts the revoke. *)
Lemma refresh_renews_short_lived_token :
  ~ (0 < ExpiresIn (token (nsp (sessionWithTtl 5))) <= 10 ->
     transportCalls
       (snd (tokenRefreshRoutine (platform 5 (Some (External "timeout")) []) 1
               (sessionWithTtl 5)))
     = transportCalls (sessionWithTtl 5)).
Proof.
  intros H. assert (Httl : 0 < ExpiresIn (token (nsp (sessionWithTtl 5))) <= 10).
  { simpl. lia. }
  specialize (H Httl). vm_compute in H. discriminate H.
Qed.

(** What the routine does with that token. *)
Example refresh_with_ttl_five :
  tokenRefreshRoutine (platform 5 (Some (External "timeout")) []) 1 (sessionWithTtl 5)
  = (Returned tt,
     {| nsp := nsp (sessionWithTtl 5);
        events := [EvSleep (-5000000000); renewalStarted; EvRevokeToken;
                   EvLog "disconnecting from NSP (10.0.0.1) failed: timeout"];
        routines := [AtLoopHead] |}).
Proof.
  reflexivity.
Qed.

(** *** Connecting twice *)

(** C7 fails: two connects that succeed leave two renewal routines, both
    asleep on the same token once the scheduler has let them move. *)
Lemma second_connect_spawns_second_routine :
  ~ (List.length
       (routines
          (schedule (platform 3600 None [])
             (snd (connectAll (platform 3600 None [])
                     [fullBody "10.0.0.1" "admin" "pw";
                      fullBody "10.0.0.1" "admin" "pw"] zeroSrv)))) <= 1)%nat.
Proof.
  vm_compute. lia.
Qed.

Example two_connects_two_sleepers :
  fst (connectAll (platform 3600 None [])
         [fullBody "10.0.0.1" "admin" "pw"; fullBody "10.0.0.1" "admin" "pw"]
         zeroSrv)
  = [ {| code := 200; text := "NSP connected" |};
      {| code := 200; text := "NSP connected" |} ]
  /\ routines
       (schedule (platform 3600 None [])
          (snd (connectAll (platform 3600 None [])
                  [fullBody "10.0.0.1" "admin" "pw";
                   fullBody "10.0.0.1" "admin" "pw"] zeroSrv)))
     = [Sleeping 3590000000000; Sleeping 3590000000000].
Proof.
  split; reflexivity.
Qed.

Lemma connects_spawn_one_routine_each_witness :
  Forall (fun reply => code reply = 200)
    (fst (connectAll (platform 3600 None [])
            [fullBody "10.0.0.1" "admin" "pw"; fullBody "10.0.0.1" "admin" "pw"]
            zeroSrv))
  /\ routines
       (snd (connectAll (platform 3600 None [])
               [fullBody "10.0.0.1" "admin" "pw"; fullBody "10.0.0.1" "admin" "pw"]
               zeroSrv))
     = routines zeroSrv ++ repeat AtLoopHead 2.
Proof.
  assert (H : Forall (fun reply => code reply = 200)
                (fst (connectAll (platform 3600 None [])
                        [fullBody "10.0.0.1" "admin" "pw";
                         fullBody "10.0.0.1" "admin" "pw"] zeroSrv))).
  { repeat constructor. }
  split; [exact H|].
  exact (connects_spawn_one_routine_each (platform 3600 None [])
           [fullBody "10.0.0.1" "admin" "pw"; fullBody "10.0.0.1" "admin" "pw"]
           zeroSrv H).
Defined.

(* ------------------------------------------------------------------ *)
(** ** More on the paginated search *)

Section SearchResults.

Variable env : Collaborators.

Lemma pageError_decoded (r : error + Response) :
  pageError r = None <-> exists out, decodedPage r = Some out.
Proof.
  unfold pageError, decodedPage. destruct r as [err|resp].
  - split; [discriminate | intros [out H]; discriminate].
  - destruct (negb (StatusCode resp =? 200)).
    + split; [discriminate | intros [out H]; discriminate].
    + destruct (asIntentTypeList (Body resp)) as [err|out].
      * split; [discriminate | intros [o H]; discriminate].
      * split; eauto.
Qed.

Lemma search_fails_with (fuel : nat) (p P : Z) (s : srv) (err : error) :
  pageError (transport env (nsp s) (events s) (searchRequest s p P)) = Some err ->
  intentTypeSearch env (S fuel) p P s
  = (Failed err, record (EvHTTP (searchRequest s p P)) s).
Proof.
  simpl. unfold pageError, makeHTTPRequest.
  destruct (transport env _ _ _) as [e|resp]; [now intros [= ->]|].
  destruct (negb (StatusCode resp =? 200)); [now intros [= ->]|].
  destruct (asIntentTypeList (Body resp)); [now intros [= ->] | discriminate].
Qed.

Lemma continues_true (r : error + Response) (P : Z) :
  continues r P = true ->
  exists out, decodedPage r = Some out /\ morePages out P = true.
Proof.
  unfold continues. destruct (decodedPage r) as [out|]; [eauto | discriminate].
Qed.

Lemma flat_map_shift (f : nat -> list string) (n : nat) :
  flat_map f (seq 1 n) = flat_map (fun k => f (S k)) (seq 0 n).
Proof.
  rewrite <- seq_shift. induction (seq 0 n) as [|k l IH]; simpl;
    [reflexivity | now rewrite IH].
Qed.

Lemma flat_map_head (f : nat -> list string) (n : nat) :
  flat_map f (seq 0 (S n)) = f 0%nat ++ flat_map (fun k => f (S k)) (seq 0 n).
Proof.
  change (seq 0 (S n)) with (0%nat :: seq 1 n). cbn [flat_map].
  now rewrite flat_map_shift.
Qed.

(** X1. A search that ends on a page that decodes returns the keys of
    all the pages it fetched, page after page in the order fetched and
    within a page in the order served. *)
Theorem search_concatenates_pages (n fuel : nat) (p P : Z) (s : srv) :
  (forall k, (k < n)%nat -> continues (responseAt env k p P s) P = true) ->
  continues (responseAt env n p P s) P = false ->
  pageError (responseAt env n p P s) = None ->
  (n < fuel)%nat ->
  fst (intentTypeSearch env fuel p P s)
  = Returned (flat_map (keysAt env p P s) (seq 0 (S n))).
Proof.
  revert fuel p s. induction n as [|n IH]; intros fuel p s Hgo Hstop Hok Hfuel;
    (destruct fuel as [|fuel]; [lia|]).
  - apply pageError_decoded in Hok. destruct Hok as [out Hout].
    unfold responseAt in Hout, Hstop. cbn [afterFetches] in Hout, Hstop.
    unfold continues in Hstop. rewrite Hout in Hstop.
    rewrite (search_last_page env fuel p P s out Hout Hstop).
    cbn [fst seq flat_map]. unfold keysAt, responseAt. cbn [afterFetches].
    rewrite Hout. now rewrite app_nil_r.
  - pose proof (Hgo 0%nat ltac:(lia)) as H0.
    apply continues_true in H0. destruct H0 as (out & Hout & Hm).
    unfold responseAt in Hout. cbn [afterFetches] in Hout.
    rewrite (search_next_page env fuel p P s out Hout Hm).
    specialize (IH fuel (Go.wrap64 (p + 1))
                   (record (EvHTTP (searchRequest s p P)) s)).
    assert (Hrec : fst (intentTypeSearch env fuel (Go.wrap64 (p + 1)) P
                          (record (EvHTTP (searchRequest s p P)) s))
                   = Returned (flat_map
                                 (keysAt env (Go.wrap64 (p + 1)) P
                                    (record (EvHTTP (searchRequest s p P)) s))
                                 (seq 0 (S n)))).
    { apply IH; [|exact Hstop|exact Hok|lia].
      intros k Hk. apply (Hgo (S k)). lia. }
    destruct (intentTypeSearch env fuel _ P _) as [[next|err|] s2];
      cbn [fst] in Hrec; try discriminate.
    injection Hrec as ->. clear IH. cbn [fst].
    rewrite (flat_map_head (keysAt env p P s) (S n)).
    replace (keysAt env p P s 0) with (map intentTypeKey (IntentTypes out)).
    + reflexivity.
    + unfold keysAt, responseAt. cbn [afterFetches]. now rewrite Hout.
Qed.

(** X2. A search whose fetch number [n] fails returns no keys at all: the
    keys of the [n] pages before are dropped and the error of the failed
    fetch comes back wrapped once for every page before it. *)
Theorem search_fails_as_a_whole (n fuel : nat) (p P : Z) (s : srv) (err : error) :
  (forall k, (k < n)%nat -> continues (responseAt env k p P s) P = true) ->
  pageError (responseAt env n p P s) = Some err ->
  (n < fuel)%nat ->
  fst (intentTypeSearch env fuel p P s)
  = Failed (Nat.iter n ErrPaginatedIntentTypes err).
Proof.
  revert fuel p s. induction n as [|n IH]; intros fuel p s Hgo Herr Hfuel;
    (destruct fuel as [|fuel]; [lia|]).
  - unfold responseAt in Herr. cbn [afterFetches] in Herr.
    now rewrite (search_fails_with fuel p P s err Herr).
  - pose proof (Hgo 0%nat ltac:(lia)) as H0.
    apply continues_true in H0. destruct H0 as (out & Hout & Hm).
    unfold responseAt in Hout. cbn [afterFetches] in Hout.
    rewrite (search_next_page env fuel p P s out Hout Hm).
    assert (Hrec : fst (intentTypeSearch env fuel (Go.wrap64 (p + 1)) P
                          (record (EvHTTP (searchRequest s p P)) s))
                   = Failed (Nat.iter n ErrPaginatedIntentTypes err)).
    { apply IH; [|exact Herr|lia].
      intros k Hk. apply (Hgo (S k)). lia. }
    destruct (intentTypeSearch env fuel _ P _) as [[next|e|] s2];
      simpl in Hrec; try discriminate.
    inversion Hrec; subst. reflexivity.
Qed.

Lemma afterFetches_frame (k : nat) (p P : Z) (s : srv) :
  nsp (fst (afterFetches k p P s)) = nsp s
  /\ routines (fst (afterFetches k p P s)) = routines s.
Proof.
  revert p s. induction k as [|k IH]; intros p s; simpl; [auto|].
  destruct (IH (Go.wrap64 (p + 1)) (record (EvHTTP (searchRequest s p P)) s))
    as [H1 H2].
  rewrite H1, H2. auto.
Qed.

Lemma search_pages_only (fuel : nat) (p P : Z) (s : srv) :
  exists k, (k <= fuel)%nat
            /\ snd (intentTypeSearch env fuel p P s) = fst (afterFetches k p P s).
Proof.
  revert p s. induction fuel as [|fuel IH]; intros p s.
  - exists 0%nat. split; [lia | reflexivity].
  - destruct (search_cases env p P s) as [H | [(out & H & Hm) | (out & H & Hm)]].
    + destruct (search_fails env fuel p P s H) as [err ->].
      exists 1%nat. split; [lia | reflexivity].
    + rewrite (search_last_page env fuel p P s out H Hm).
      exists 1%nat. split; [lia | reflexivity].
    + rewrite (search_next_page env fuel p P s out H Hm).
      destruct (IH (Go.wrap64 (p + 1)) (record (EvHTTP (searchRequest s p P)) s))
        as (k & Hk & Hs).
      exists (S k). split; [lia|].
      destruct (intentTypeSearch env fuel _ P _) as [[next|err|] s2];
        simpl in *; exact Hs.
Qed.

(** X3. Whatever the server answers, a search leaves the session and the
    renewal routines as they were, and all it adds to the history are
    requests for consecutive pages from the first on, to the host of the
    session and with the page size asked for: at most one for each level
    of recursion. *)
Theorem search_only_fetches_pages (fuel : nat) (p P : Z) (s : srv) :
  nsp (snd (intentTypeSearch env fuel p P s)) = nsp s
  /\ routines (snd (intentTypeSearch env fuel p P s)) = routines s
  /\ exists k, (k <= fuel)%nat
               /\ snd (intentTypeSearch env fuel p P s) = fst (afterFetches k p P s).
Proof.
  destruct (search_pages_only fuel p P s) as (k & Hk & Hs). rewrite Hs.
  destruct (afterFetches_frame k p P s) as [H1 H2]. eauto.
Qed.

(** X4. The module fetch succeeds exactly when the key has an underscore
    and the one GET it sends is answered with status 200 and a body that
    decodes; it then returns the modules of that body. Whatever happens,
    the session and the routines stay as they were. *)
Theorem yangModules_succeeds_iff (key : string) (s : srv)
  (modules : list IntentTypeYangModule) :
  (fst (intentTypeYangModules env key s) = Returned modules
   <-> exists name version resp,
         splitIntentType key = Some (name, version)
         /\ transport env (nsp s) (events s)
              (GetIntentType (Ip (nsp s)) name version) = inr resp
         /\ StatusCode resp = 200
         /\ asIntentTypeDefinition (Body resp) = inr modules)
  /\ nsp (snd (intentTypeYangModules env key s)) = nsp s
  /\ routines (snd (intentTypeYangModules env key s)) = routines s.
Proof.
  unfold intentTypeYangModules, makeHTTPRequest.
  destruct (splitIntentType key) as [[name version]|].
  2:{ cbn [fst snd]. split; [|auto]. split; [discriminate|].
      intros (n & v & r & H & _). discriminate. }
  destruct (transport env _ _ _) as [err|resp] eqn:Ht.
  { cbn [fst snd record nsp routines]. split; [|auto]. split; [discriminate|].
    intros (n & v & r & [= <- <-] & Hr & _). congruence. }
  destruct (negb (StatusCode resp =? 200)) eqn:Hs.
  { cbn [fst snd record nsp routines]. split; [|auto]. split; [discriminate|].
    intros (n & v & r & [= <- <-] & Hr & Hc & _).
    rewrite Ht in Hr. inversion Hr; subst.
    rewrite Hc in Hs. discriminate. }
  apply negb_false_iff, Z.eqb_eq in Hs.
  destruct (asIntentTypeDefinition (Body resp)) as [err|ms] eqn:Hd;
    cbn [fst snd record nsp routines]; (split; [|auto]).
  - split; [discriminate|].
    intros (n & v & r & [= <- <-] & Hr & _ & Hm).
    rewrite Ht in Hr. inversion Hr; subst. congruence.
  - split.
    + intros [= <-]. exists name, version, resp. auto.
    + intros (n & v & r & [= <- <-] & Hr & _ & Hm).
      rewrite Ht in Hr. inversion Hr; subst. congruence.
Qed.

End SearchResults.

(* ------------------------------------------------------------------ *)
(** ** More on the session handlers *)

Section SessionLife.

Variable env : Collaborators.

Lemma transportCalls_record (ev : Event) (s : srv) :
  transportCalls (record ev s)
  = transportCalls s ++ (if isTransport ev then [ev] else []).
Proof.
  unfold transportCalls, record. cbn [events].
  rewrite filter_app. simpl. destruct (isTransport ev); reflexivity.
Qed.

Lemma transportCalls_setNsp (acc : NspAccess) (s : srv) :
  transportCalls (setNsp acc s) = transportCalls s.
Proof.
  reflexivity.
Qed.

Lemma raiseError_transportCalls (msg : string) (err : option error) (s : srv) :
  transportCalls (snd (raiseError env msg err s)) = transportCalls s.
Proof.
  destruct err; cbn [raiseError snd]; [|reflexivity].
  rewrite transportCalls_record. simpl. now rewrite app_nil_r.
Qed.

Lemma raiseError_nsp (msg : string) (err : option error) (s : srv) :
  nsp (snd (raiseError env msg err s)) = nsp s.
Proof.
  destruct err; reflexivity.
Qed.

Lemma app_one_neq {A : Type} (l : list A) (x : A) : l <> l ++ [x].
Proof.
  intros H. apply (f_equal (@List.length A)) in H.
  rewrite length_app in H. simpl in H. lia.
Qed.

Lemma fields_test (acc : NspAccess) :
  (Ip acc =? "")%string || (User acc =? "")%string || (Pass acc =? "")%string = false
  <-> Ip acc <> "" /\ User acc <> "" /\ Pass acc <> "".
Proof.
  rewrite !orb_false_iff, !String.eqb_neq. tauto.
Qed.

(** Splits a characterisation into its directions and closes those that
    are decided by the shape of the history or of the reply. *)
Ltac decide_direction :=
  repeat match goal with
         | |- _ /\ _ => split
         | |- _ <-> _ => split
         | |- ~ _ => intro
         | |- _ -> _ => intro
         end;
  repeat match goal with
         | H : _ /\ _ |- _ => destruct H
         end;
  try tauto; try lia; try congruence;
  try (exfalso;
       match goal with
       | H : ?l = ?l ++ [_] |- _ => exact (app_one_neq _ _ H)
       | H : ?l ++ [_] = ?l |- _ => exact (app_one_neq _ _ (eq_sym H))
       end).

(** X5. A connect request reaches the platform, with the one call of
    [getToken], exactly when its body decodes and host, user and password
    are all non-empty once decoded; it is answered with 200 exactly when,
    on top of that, [getToken] succeeds, and with 500 otherwise. *)
Theorem connect_contacts_platform_iff (body : ConnectBody) (s : srv) :
  (transportCalls (snd (nspConnect env body s)) = transportCalls s ++ [EvGetToken]
   <-> fst (Decode body (nsp s)) = None
       /\ credentialsComplete (snd (Decode body (nsp s))))
  /\ (transportCalls (snd (nspConnect env body s)) = transportCalls s
      <-> ~ (fst (Decode body (nsp s)) = None
             /\ credentialsComplete (snd (Decode body (nsp s)))))
  /\ (code (fst (nspConnect env body s)) = 200
      <-> fst (Decode body (nsp s)) = None
          /\ credentialsComplete (snd (Decode body (nsp s)))
          /\ fst (authenticate env (snd (Decode body (nsp s))) (events s)) = None)
  /\ (code (fst (nspConnect env body s)) = 200
      \/ code (fst (nspConnect env body s)) = 500).
Proof.
  unfold nspConnect, credentialsComplete.
  destruct (Decode body (nsp s)) as [[derr|] acc]; cbn [fst snd].
  - rewrite raiseError_transportCalls, raiseError_code, transportCalls_setNsp.
    decide_direction.
  - cbn [setNsp nsp].
    destruct ((Ip acc =? "")%string || (User acc =? "")%string
              || (Pass acc =? "")%string) eqn:E.
    + rewrite raiseError_transportCalls, raiseError_code, transportCalls_setNsp.
      assert (Hn : ~ (Ip acc <> "" /\ User acc <> "" /\ Pass acc <> "")).
      { intros H. apply fields_test in H. congruence. }
      decide_direction.
    + apply fields_test in E. unfold getToken. cbn [setNsp nsp events].
      destruct (authenticate env acc (events s)) as [[aerr|] acc'];
        cbn [fst snd].
      * rewrite raiseError_transportCalls, raiseError_code, transportCalls_setNsp,
          transportCalls_record, transportCalls_setNsp. cbn [isTransport].
        decide_direction.
      * unfold spawn, transportCalls. cbn [events setNsp record writeResponse code].
        rewrite filter_app. cbn [filter isTransport].
        simpl. decide_direction.
Qed.

(** X6. A connect whose authentication fails keeps the credentials it
    decoded: when [getToken] hands back the error with the host still set
    and no token, no routine is started and the status handler answers
    "not connected", yet a disconnect that follows does not: it goes on
    to call [revokeToken]. *)
Theorem failed_connect_then_disconnect_revokes
  (body : ConnectBody) (s : srv) (err : error) (acc' : NspAccess) :
  fst (Decode body (nsp s)) = None ->
  credentialsComplete (snd (Decode body (nsp s))) ->
  authenticate env (snd (Decode body (nsp s))) (events s) = (Some err, acc') ->
  Ip acc' <> "" ->
  AccessToken (token acc') = "" ->
  code (fst (nspConnect env body s)) = 500
  /\ routines (snd (nspConnect env body s)) = routines s
  /\ fst (nspIsConnected env (snd (nspConnect env body s))) = Plain NotConnected
  /\ transportCalls (snd (nspDisconnect env (snd (nspConnect env body s))))
     = transportCalls s ++ [EvGetToken; EvRevokeToken].
Proof.
  intros Hdec Hfields Hauth Hip Htok.
  unfold nspConnect.
  destruct (Decode body (nsp s)) as [derr acc]. cbn [fst snd] in *. subst derr.
  apply fields_test in Hfields. cbn [setNsp nsp]. rewrite Hfields.
  unfold getToken. cbn [setNsp nsp events]. rewrite Hauth.
  cbn [raiseError fst snd].
  split; [apply writeResponse_error|]. split; [reflexivity|].
  split.
  - unfold nspIsConnected. cbn [record setNsp nsp]. rewrite Htok. reflexivity.
  - unfold nspDisconnect. cbn [record setNsp nsp].
    rewrite (nonempty_eqb _ Hip). unfold revokeToken.
    destruct (revoke env _ _) as [[rerr|] acc2]; cbn [raiseError snd];
      unfold transportCalls, record, setNsp; cbn [events];
      rewrite !filter_app; cbn [filter isTransport];
      rewrite ?app_nil_r, <- ?app_assoc; reflexivity.
Qed.

(** X7. A disconnect calls [revokeToken], once, exactly when the stored
    host is non-empty, and answers 200 exactly when that call succeeds;
    it never takes a renewal routine out of the pool. *)
Theorem disconnect_revokes_iff_host (s : srv) :
  (transportCalls (snd (nspDisconnect env s)) = transportCalls s ++ [EvRevokeToken]
   <-> Ip (nsp s) <> "")
  /\ (transportCalls (snd (nspDisconnect env s)) = transportCalls s
      <-> Ip (nsp s) = "")
  /\ (code (fst (nspDisconnect env s)) = 200
      <-> Ip (nsp s) <> "" /\ fst (revoke env (nsp s) (events s)) = None)
  /\ routines (snd (nspDisconnect env s)) = routines s.
Proof.
  unfold nspDisconnect.
  destruct (Ip (nsp s) =? "")%string eqn:E.
  - apply String.eqb_eq in E. cbn [raiseError fst snd].
    rewrite writeResponse_error. decide_direction.
  - apply String.eqb_neq in E. unfold revokeToken.
    destruct (revoke env (nsp s) (events s)) as [[rerr|] acc]; cbn [fst snd].
    + rewrite raiseError_transportCalls, raiseError_code, raiseError_routines,
        transportCalls_setNsp, transportCalls_record. cbn [isTransport].
      decide_direction.
    + rewrite transportCalls_setNsp, transportCalls_record.
      cbn [isTransport]. simpl. decide_direction.
Qed.

Lemma disconnect_routines (s : srv) :
  routines (snd (nspDisconnect env s)) = routines s.
Proof.
  unfold nspDisconnect.
  destruct (Ip (nsp s) =? "")%string; [reflexivity|].
  unfold revokeToken.
  destruct (revoke env (nsp s) (events s)) as [[rerr|] acc]; reflexivity.
Qed.

(** X8. A renewal routine asleep when a disconnect is handled is still
    in the pool afterwards, whatever the disconnect answered, and when it
    wakes it attempts a revoke without looking at the session. *)
Theorem sleeper_outlives_disconnect (s : srv) (d : Z) :
  In (Sleeping d) (routines s) ->
  In (Sleeping d) (routines (snd (nspDisconnect env s)))
  /\ exists rest,
       since (snd (nspDisconnect env s))
         (snd (stepRoutine env (Sleeping d) (snd (nspDisconnect env s))))
       = renewalStarted :: EvRevokeToken :: rest.
Proof.
  intros Hin. split.
  - now rewrite disconnect_routines.
  - cbn [stepRoutine].
    destruct (refreshRenew_events env (snd (nspDisconnect env s))) as [rest Hr].
    exists rest. apply since_app.
    destruct (refreshRenew env (snd (nspDisconnect env s))) as [again s2].
    exact Hr.
Qed.

Lemma refreshRenew_gives_up (s s1 : srv) :
  refreshRenew env s = (false, s1) ->
  (exists prefix err,
     events s1 = prefix ++ [EvRevokeToken;
                            EvLog ("disconnecting from NSP (" ++ Ip (nsp s1)
                                   ++ ") failed: " ++ Error err)%string])
  \/ (exists prefix err,
        events s1 = prefix ++ [EvGetToken;
                               EvLog ("reconnecting to NSP (" ++ Ip (nsp s1)
                                      ++ ") failed: " ++ Error err)%string]).
Proof.
  unfold refreshRenew, revokeToken, getToken, logf.
  cbn [record setNsp nsp events routines].
  destruct (revoke env _ _) as [[err|] acc];
    cbn [record setNsp nsp events routines].
  - intros [= <-]. left.
    exists (events s ++ [renewalStarted]), err.
    simpl. rewrite <- !app_assoc. reflexivity.
  - destruct (authenticate env _ _) as [[err|] acc'];
      cbn [record setNsp nsp events routines]; [|discriminate].
    intros [= <-]. right.
    exists ((events s ++ [renewalStarted]) ++ [EvRevokeToken]), err.
    simpl. rewrite <- !app_assoc. reflexivity.
Qed.

(** X9. The renewal routine ends in two ways only: it finds a token with
    a time-to-live of 0, or a revoke or a re-acquisition has just failed
    and been logged; after a failure it makes no further call. *)
Theorem refresh_returns_on_zero_or_failure (fuel : nat) (s s' : srv) :
  tokenRefreshRoutine env fuel s = (Returned tt, s') ->
  ExpiresIn (token (nsp s')) = 0
  \/ (exists prefix err,
        events s' = prefix ++ [EvRevokeToken;
                               EvLog ("disconnecting from NSP (" ++ Ip (nsp s')
                                      ++ ") failed: " ++ Error err)%string])
  \/ (exists prefix err,
        events s' = prefix ++ [EvGetToken;
                               EvLog ("reconnecting to NSP (" ++ Ip (nsp s')
                                      ++ ") failed: " ++ Error err)%string]).
Proof.
  revert s. induction fuel as [|fuel IH]; intros s; simpl; [discriminate|].
  unfold refreshHead.
  destruct (ExpiresIn (token (nsp s)) =? 0) eqn:E.
  - intros [= <-]. left. now apply Z.eqb_eq.
  - destruct (refreshRenew env _) as [again s1] eqn:Hr.
    destruct again.
    + apply IH.
    + intros [= <-]. right. now apply (refreshRenew_gives_up _ _ Hr).
Qed.

(** X10. For a time-to-live from -9223372026 to 9223372046 seconds the
    routine asks [time.Sleep] for exactly the time-to-live less ten
    seconds, in nanoseconds; the product does not wrap around. *)
Theorem refresh_sleeps_ttl_less_ten (s : srv) :
  ExpiresIn (token (nsp s)) <> 0 ->
  -9223372026 <= ExpiresIn (token (nsp s)) <= 9223372046 ->
  refreshHead s = Some (1000000000 * (ExpiresIn (token (nsp s)) - 10)).
Proof.
  intros Hnz Hrange. unfold refreshHead.
  apply Z.eqb_neq in Hnz. rewrite Hnz. f_equal.
  rewrite (wrap64_id (ExpiresIn (token (nsp s)) - 10)).
  - apply wrap64_id. unfold Go.int_range.
    change (2 ^ 63) with 9223372036854775808. lia.
  - unfold Go.int_range. change (2 ^ 63) with 9223372036854775808. lia.
Qed.


Lemma refreshRenew_succeeds (s : srv) :
  neverFails env ->
  exists s2,
    refreshRenew env s = (true, s2)
    /\ ExpiresIn (token (nsp s2)) <> 0
    /\ transportCalls s2 = transportCalls s ++ [EvRevokeToken; EvGetToken].
Proof.
  intros [Hrev Hauth].
  unfold refreshRenew, revokeToken, getToken, logf.
  cbn [record setNsp nsp events routines].
  pose proof (Hrev (nsp s) (events s ++ [renewalStarted])) as H1.
  unfold renewalStarted in H1.
  destruct (revoke env _ _) as [r acc1]. cbn [fst] in H1. subst r.
  cbn [record setNsp nsp events routines].
  match goal with
  | |- context [authenticate env ?a ?h] =>
      pose proof (Hauth a h) as [H2 H3]; destruct (authenticate env a h) as [r acc2]
  end.
  cbn [fst snd] in H2, H3. subst r.
  eexists. split; [reflexivity|]. split; [exact H3|].
  unfold transportCalls, record, setNsp. cbn [events].
  rewrite !filter_app. cbn [filter isTransport].
  rewrite ?app_nil_r, <- ?app_assoc. reflexivity.
Qed.

(** X11. As long as no revoke and no re-acquisition fails and the tokens
    granted have a time-to-live other than 0, the routine does not
    return: every turn of its loop makes one revoke and one
    re-acquisition, in that order, with the time-to-live of the token just
    acquired setting the next sleep. *)
Theorem refresh_keeps_renewing (fuel : nat) (s : srv) :
  neverFails env ->
  ExpiresIn (token (nsp s)) <> 0 ->
  fst (tokenRefreshRoutine env fuel s) = OutOfFuel
  /\ transportCalls (snd (tokenRefreshRoutine env fuel s))
     = transportCalls s ++ List.concat (repeat [EvRevokeToken; EvGetToken] fuel).
Proof.
  intros Hok. revert s. induction fuel as [|fuel IH]; intros s Hnz.
  - simpl. now rewrite app_nil_r.
  - cbn [tokenRefreshRoutine]. unfold refreshHead.
    apply Z.eqb_neq in Hnz. rewrite Hnz.
    match goal with
    | |- context [refreshRenew env ?s0] =>
        destruct (refreshRenew_succeeds s0 Hok) as (s2 & Hr & Httl & Hcalls);
        rewrite Hr
    end.
    destruct (IH s2 Httl) as [Hout Hc].
    split; [exact Hout|].
    rewrite Hc, Hcalls, transportCalls_record. cbn [isTransport].
    rewrite app_nil_r, <- app_assoc. reflexivity.
Qed.

(** X12. After a connect with host, user and password all given and
    non-empty, whose [getToken] succeeds leaving host and user in place
    and a token stored, the status handler answers with that host and
    that user, and with nothing else. *)
Theorem connect_then_status (ip user pass : string) (s : srv) (acc' : NspAccess) :
  ip <> "" -> user <> "" -> pass <> "" ->
  authenticate env
    {| Ip := ip; User := user; Pass := pass; token := token (nsp s) |} (events s)
  = (None, acc') ->
  Ip acc' = ip -> User acc' = user -> AccessToken (token acc') <> "" ->
  fst (nspConnect env (fullBody ip user pass) s)
  = {| code := 200; text := "NSP connected" |}
  /\ fst (nspIsConnected env (snd (nspConnect env (fullBody ip user pass) s)))
     = JsonBody (JObject [("ip"%string, JString ip); ("user"%string, JString user)])
  /\ snd (nspIsConnected env (snd (nspConnect env (fullBody ip user pass) s)))
     = snd (nspConnect env (fullBody ip user pass) s).
Proof.
  intros Hip Huser Hpass Hauth Hi Hu Htok.
  assert (Hc : nspConnect env (fullBody ip user pass) s
               = ({| code := 200; text := "NSP connected" |},
                  spawn (setNsp acc'
                           (record EvGetToken
                              (setNsp {| Ip := ip; User := user; Pass := pass;
                                         token := token (nsp s) |} s))))).
  { unfold nspConnect, fullBody. cbn [Decode orKeep setNsp nsp Ip User Pass].
    rewrite (nonempty_eqb _ Hip), (nonempty_eqb _ Huser), (nonempty_eqb _ Hpass).
    cbn [orb]. unfold getToken, setNsp, record. cbn [nsp events].
    rewrite Hauth. reflexivity. }
  rewrite Hc. cbn [fst snd]. split; [reflexivity|].
  unfold nspIsConnected, spawn, setNsp, record. cbn [nsp].
  rewrite (nonempty_eqb _ Htok), Hi, Hu. auto.
Qed.

End SessionLife.

(* ------------------------------------------------------------------ *)
(** ** Listing *)

Section Listing.

Variable disk : LocalDisk.
Variable env : Collaborators.

Lemma marshalList_nonempty (f : list ListResponse) (e : ListResponse) :
  marshalList (f ++ [e]) = JArray (map marshalListResponse (f ++ [e])).
Proof.
  destruct f; reflexivity.
Qed.

(** X13. For a catalogue served in order in pages of 300, the listing of
    the "nsp" kind answers with one entry for each intent type, named
    name_version and without files, in catalogue order; for an empty
    catalogue the JSON body is null, not an empty array. The session is
    left as it was. *)
Theorem list_nsp_lists_catalogue (data : list IntentType) (fuel : nat) (s : srv) :
  servesCatalogue env data 300 ->
  Z.of_nat (List.length data) < 2 ^ 63 ->
  (List.length data < fuel)%nat ->
  fst (listHandler disk env fuel "nsp" s)
  = Some (JsonBody
            match data with
            | [] => JNull
            | _ => JArray (map (fun it =>
                                  JObject [("name"%string,
                                            JString (intentTypeKey it))]) data)
            end)
  /\ nsp (snd (listHandler disk env fuel "nsp" s)) = nsp s.
Proof.
  intros Hserve Hcount Hfuel.
  assert (Hrange : 1 <= 300 < 2 ^ 63) by (split; [lia | reflexivity]).
  pose proof (search_from_page env data 300 Hserve Hrange Hcount fuel 0 s
                ltac:(lia) ltac:(lia) Hfuel) as Hsearch.
  assert (Hnsp : nsp (snd (intentTypeSearch env fuel 0 300 s)) = nsp s).
  { destruct (search_pages_only env fuel 0 300 s) as (k & _ & Hs). rewrite Hs.
    apply afterFetches_frame. }
  unfold listHandler. cbn [String.eqb Ascii.eqb Bool.eqb andb].
  destruct (intentTypeSearch env fuel 0 300 s) as [[keys|err|] s'];
    cbn [fst snd] in *; try discriminate.
  injection Hsearch as ->. split; [|exact Hnsp].
  unfold entriesFrom. cbn [Z.mul Z.to_nat skipn].
  destruct data as [|it rest]; [reflexivity|].
  cbn [map marshalList]. rewrite !map_map. reflexivity.
Qed.

(** X14. Unless the kind is "nsp", the listing never calls the platform
    and leaves the session as it was. *)
Theorem list_calls_platform_only_for_nsp (fuel : nat) (kind : string) (s : srv) :
  kind <> "nsp" ->
  transportCalls (snd (listHandler disk env fuel kind s)) = transportCalls s
  /\ nsp (snd (listHandler disk env fuel kind s)) = nsp s
  /\ routines (snd (listHandler disk env fuel kind s)) = routines s.
Proof.
  intros Hk. unfold listHandler, raiseErrorReply.
  destruct (kind =? "local")%string.
  - destruct (ReadDir disk yangFolder) as [err|entries].
    + cbn [raiseError fst snd]. rewrite transportCalls_record. simpl.
      now rewrite app_nil_r.
    + destruct (listRepos disk entries) as [err|f].
      * cbn [raiseError fst snd]. rewrite transportCalls_record. simpl.
        now rewrite app_nil_r.
      * auto.
  - apply String.eqb_neq in Hk. rewrite Hk. cbn [raiseError snd]. auto.
Qed.

Lemma listRepos_all_readable (entries : list DirEntry) :
  (forall e, In e entries -> IsDir e = true -> readable disk e) ->
  exists repos,
    listRepos disk entries = inr repos
    /\ map ListName repos = map EntryName (filter IsDir entries)
    /\ forall r, In r repos ->
         exists l, ReadDir disk (yangFolder ++ ListName r ++ "/")%string = inr l
                   /\ Files r = fileNames l.
Proof.
  induction entries as [|e rest IH]; intros Hread.
  - exists []. simpl. repeat split; auto. intros r [].
  - destruct IH as (repos & Hrepos & Hnames & Hfiles).
    { intros e' Hin. apply Hread. now right. }
    cbn [listRepos filter]. destruct (IsDir e) eqn:Hd.
    + destruct (Hread e (or_introl eq_refl) Hd) as [l Hl]. rewrite Hl, Hrepos.
      eexists. split; [reflexivity|]. split.
      * cbn [map ListName]. now rewrite Hnames.
      * intros r [<- | Hin]; [exists l; auto | now apply Hfiles].
    + exists repos. auto.
Qed.

(** X15. When the uploads folder and every directory in it can be read,
    the listing of the "local" kind answers with a JSON array (never
    null): one entry for each directory, in the order of the folder,
    holding the names of all files of that directory whatever their
    extension, and last the entry with the empty name for the files of
    the uploads folder itself that pass the ".yang" test. *)
Theorem list_local_entries (entries : list DirEntry) (fuel : nat) (s : srv) :
  ReadDir disk yangFolder = inr entries ->
  (forall e, In e entries -> IsDir e = true -> readable disk e) ->
  exists repos,
    listHandler disk env fuel "local" s
    = (Some (JsonBody
               (JArray (map marshalListResponse
                          (repos ++ [{| ListName := "";
                                        Files := filter (isYangFile disk)
                                                   (fileNames entries) |}])))),
       s)
    /\ map ListName repos = map EntryName (filter IsDir entries)
    /\ forall r, In r repos ->
         exists l, ReadDir disk (yangFolder ++ ListName r ++ "/")%string = inr l
                   /\ Files r = fileNames l.
Proof.
  intros Hroot Hread.
  destruct (listRepos_all_readable entries Hread) as (repos & Hrepos & Hn & Hf).
  exists repos. split; [|auto].
  unfold listHandler. cbn [String.eqb Ascii.eqb Bool.eqb andb].
  rewrite Hroot, Hrepos, marshalList_nonempty. reflexivity.
Qed.

(** X16. One directory that cannot be read fails the whole listing: the
    answer is a 500 carrying the error of the first such directory, and
    nothing of what was read is sent. *)
Theorem list_local_fails_on_first_unreadable
  (before after : list DirEntry) (d : DirEntry) (err : error) (fuel : nat) (s : srv) :
  ReadDir disk yangFolder = inr (before ++ d :: after) ->
  (forall e, In e before -> IsDir e = true -> readable disk e) ->
  IsDir d = true ->
  ReadDir disk (yangFolder ++ EntryName d ++ "/")%string = inl err ->
  fst (listHandler disk env fuel "local" s)
  = Some (Plain (httpError ("reading local yang repos failed / " ++ Error err)%string
                   500)).
Proof.
  intros Hroot Hread Hd Herr.
  assert (Hrepos : listRepos disk (before ++ d :: after) = inl err).
  { clear Hroot. induction before as [|e rest IH].
    - cbn [app listRepos]. now rewrite Hd, Herr.
    - cbn [app listRepos]. rewrite IH.
      2:{ intros e' Hin. apply Hread. now right. }
      destruct (IsDir e) eqn:He; [|reflexivity].
      destruct (Hread e (or_introl eq_refl) He) as [l Hl]. now rewrite Hl. }
  unfold listHandler. cbn [String.eqb Ascii.eqb Bool.eqb andb].
  rewrite Hroot, Hrepos. reflexivity.
Qed.

(** *** The ".yang" test *)

Lemma Ext_suffix (path : string) :
  exists stem, path = (stem ++ Ext path)%string.
Proof.
  induction path as [|a rest IH].
  - exists EmptyString. reflexivity.
  - cbn [Ext].
    destruct (Go.contains "."%char rest || Go.contains "/"%char rest).
    + destruct IH as [stem Hs]. exists (String a stem). simpl. now rewrite <- Hs.
    + destruct (Ascii.eqb a "."%char).
      * exists EmptyString. reflexivity.
      * exists (String a rest). simpl. clear.
        induction rest as [|b r IH]; simpl; [reflexivity|].
        injection IH as IH. now rewrite <- IH.
Qed.

Lemma contains_app_r (c : ascii) (a b : string) :
  Go.contains c b = true -> Go.contains c (a ++ b)%string = true.
Proof.
  intros H. induction a as [|x a IH]; simpl; [exact H|].
  rewrite IH. apply orb_true_r.
Qed.

Lemma Ext_dot_tail (stem tail : string) :
  Go.contains "."%char tail = false ->
  Go.contains "/"%char tail = false ->
  Ext (stem ++ String "."%char tail) = String "."%char tail.
Proof.
  intros Hdot Hslash. induction stem as [|a stem IH].
  - cbn [String.append Ext]. rewrite Hdot, Hslash. reflexivity.
  - cbn [String.append Ext].
    rewrite (contains_app_r "."%char stem (String "."%char tail)); [exact IH|].
    reflexivity.
Qed.

Lemma isASCII_app (a b : string) :
  isASCII (a ++ b)%string = isASCII a && isASCII b.
Proof.
  induction a as [|x a IH]; simpl; [reflexivity|].
  now rewrite IH, andb_assoc.
Qed.

Lemma lowerByte_dot (c : ascii) : lowerByte c = "."%char -> c = "."%char.
Proof.
  destruct c as [[] [] [] [] [] [] [] []]; vm_compute; intros H;
    try discriminate H; reflexivity.
Qed.

Lemma lowerByte_letter (c l u : ascii) :
  In (l, u) [("y", "Y"); ("a", "A"); ("n", "N"); ("g", "G")]%char ->
  lowerByte c = l -> c = l \/ c = u.
Proof.
  intros Hin H.
  repeat (destruct Hin as [[= <- <-] | Hin]); try contradiction;
    destruct c as [[] [] [] [] [] [] [] []]; vm_compute in H;
    try discriminate H; auto.
Qed.

(** X17. A file of the uploads folder with an ASCII name is listed
    exactly when its name ends in a dot followed by the letters y, a, n,
    g, each in either case, so "model.YANG" is listed as "model.yang"
    is. *)
Theorem isYangFile_iff (yangFile : string) :
  isASCII yangFile = true ->
  (isYangFile disk yangFile = true
   <-> exists stem e, yangFile = (stem ++ e)%string /\ yangSuffix e).
Proof.
  intros Hascii. unfold isYangFile, ToLower. split.
  - intros H. destruct (Ext_suffix yangFile) as [stem Hstem].
    exists stem, (Ext yangFile). split; [exact Hstem|].
    assert (Ha : isASCII (Ext yangFile) = true).
    { rewrite Hstem, isASCII_app in Hascii.
      now apply andb_true_iff in Hascii. }
    rewrite Ha in H. apply String.eqb_eq in H.
    destruct (Ext yangFile) as [|c0 [|y [|a [|n [|g [|x rest]]]]]];
      simpl in H; try discriminate H.
    injection H as H0 Hy Hal Hn Hg.
    apply lowerByte_dot in H0. subst c0.
    exists y, a, n, g. split; [reflexivity|].
    split; [apply (lowerByte_letter y "y" "Y"); [simpl; auto | exact Hy]|].
    split; [apply (lowerByte_letter a "a" "A"); [simpl; auto | exact Hal]|].
    split; [apply (lowerByte_letter n "n" "N"); [simpl; auto | exact Hn]|].
    apply (lowerByte_letter g "g" "G"); [simpl; auto | exact Hg].
  - intros (stem & e & -> & y & a & n & g & -> & Hy & Ha & Hn & Hg).
    rewrite Ext_dot_tail.
    + destruct Hy as [-> | ->], Ha as [-> | ->], Hn as [-> | ->], Hg as [-> | ->];
        reflexivity.
    + destruct Hy as [-> | ->], Ha as [-> | ->], Hn as [-> | ->], Hg as [-> | ->];
        reflexivity.
    + destruct Hy as [-> | ->], Ha as [-> | ->], Hn as [-> | ->], Hg as [-> | ->];
        reflexivity.
Qed.

End Listing.

(* ------------------------------------------------------------------ *)
(** ** The page loader *)

Section PageLoad.

Lemma strictEq_iff (a b : Page.jsString) : Page.strictEq a b = true <-> a = b.
Proof.
  revert b. induction a as [|x a IH]; intros [|y b]; simpl;
    try (split; [discriminate | discriminate]); [tauto|].
  rewrite andb_true_iff, N.eqb_eq, IH. split.
  - intros [-> ->]. reflexivity.
  - intros [= -> ->]. auto.
Qed.

(** X18. The loader throws, with status 404, exactly when the kind of
    the route is neither "local" nor "nsp", compared code unit by code
    unit; otherwise it hands kind and basename on as they came. *)
Theorem load_rejects_other_kinds
  (searchParams : list (Page.jsString * Page.jsString))
  (paramKind paramBasename : Page.jsString) :
  (Page.load searchParams paramKind paramBasename
   = inl (404%N, Page.js "Unsupported kind")
   <-> paramKind <> Page.js "local" /\ paramKind <> Page.js "nsp")
  /\ ((exists data,
         Page.load searchParams paramKind paramBasename = inr data
         /\ Page.kind data = paramKind /\ Page.basename data = paramBasename)
      <-> paramKind = Page.js "local" \/ paramKind = Page.js "nsp").
Proof.
  pose proof (strictEq_iff paramKind (Page.js "local")) as Hl.
  pose proof (strictEq_iff paramKind (Page.js "nsp")) as Hn.
  unfold Page.load.
  destruct (Page.strictEq paramKind (Page.js "local"));
    destruct (Page.strictEq paramKind (Page.js "nsp"));
    cbn [negb andb];
    (split;
     [ split; [intros H | intros [H1 H2]]
     | split; [intros (data & H & _) | intros H] ]).
  all: try (eexists; split; [reflexivity | split; reflexivity]).
  all: intuition (try discriminate; try congruence).
Qed.

Lemma trimStart_split (s : Page.jsString) :
  exists pre,
    s = pre ++ Page.trimStart s
    /\ forallb Page.isWhiteSpace pre = true
    /\ forall c rest, Page.trimStart s = c :: rest -> Page.isWhiteSpace c = false.
Proof.
  induction s as [|c s IH].
  - exists []. repeat split; auto. intros c rest H. discriminate H.
  - cbn [Page.trimStart]. destruct (Page.isWhiteSpace c) eqn:E.
    + destruct IH as (pre & Hs & Hpre & Hhead).
      exists (c :: pre). cbn [app forallb]. rewrite E, Hpre, <- Hs. auto.
    + exists []. repeat split; auto. intros c' rest [= <- <-]. exact E.
Qed.

Lemma trimEnd_split (s : Page.jsString) :
  exists post,
    s = Page.trimEnd s ++ post
    /\ forallb Page.isWhiteSpace post = true
    /\ forall c init, Page.trimEnd s = init ++ [c] -> Page.isWhiteSpace c = false.
Proof.
  unfold Page.trimEnd.
  destruct (trimStart_split (rev s)) as (pre & Hs & Hpre & Hhead).
  exists (rev pre). repeat split.
  - rewrite <- rev_app_distr, <- Hs. now rewrite rev_involutive.
  - rewrite forallb_forall in *. intros x Hx. apply Hpre. now apply in_rev.
  - intros c init H. apply (f_equal (@rev N)) in H.
    rewrite rev_involutive, rev_app_distr in H. simpl in H.
    exact (Hhead c (rev init) H).
Qed.

Lemma trimEnd_keeps_head (c : N) (rest : Page.jsString) :
  Page.isWhiteSpace c = false ->
  exists rest', Page.trimEnd (c :: rest) = c :: rest'.
Proof.
  intros Hc. unfold Page.trimEnd. cbn [rev].
  assert (H : forall l, exists u, Page.trimStart (l ++ [c]) = u ++ [c]).
  { induction l as [|x l IH]; cbn [app Page.trimStart].
    - rewrite Hc. exists []. reflexivity.
    - destruct (Page.isWhiteSpace x); [exact IH|].
      exists (x :: l). reflexivity. }
  destruct (H (rev rest)) as [u Hu]. rewrite Hu, rev_app_distr.
  exists (rev u). reflexivity.
Qed.

(** X19. The path the loader hands on is the first "path" parameter of
    the URL without the white space and line ends on either side of it,
    and nothing else is removed; it is empty when the URL has no such
    parameter. *)
Theorem load_trims_url_path
  (searchParams : list (Page.jsString * Page.jsString))
  (paramKind paramBasename : Page.jsString) (data : Page.PageData) :
  Page.load searchParams paramKind paramBasename = inr data ->
  match Page.get searchParams (Page.js "path") with
  | None => Page.urlPath data = []
  | Some v =>
      exists pre post,
        v = pre ++ Page.urlPath data ++ post
        /\ forallb Page.isWhiteSpace pre = true
        /\ forallb Page.isWhiteSpace post = true
        /\ (forall c rest, Page.urlPath data = c :: rest ->
                           Page.isWhiteSpace c = false)
        /\ (forall c init, Page.urlPath data = init ++ [c] ->
                           Page.isWhiteSpace c = false)
  end.
Proof.
  unfold Page.load.
  destruct (negb _ && negb _); [discriminate|].
  intros [= <-]. cbn [Page.urlPath].
  destruct (Page.get searchParams (Page.js "path")) as [v|]; [|reflexivity].
  unfold Page.trim.
  destruct (trimStart_split v) as (pre & Hv & Hpre & Hhead).
  destruct (trimEnd_split (Page.trimStart v)) as (post & Ht & Hpost & Hlast).
  exists pre, post. split; [|split; [exact Hpre|split; [exact Hpost|split]]].
  - rewrite <- Ht. exact Hv.
  - intros c rest H.
    destruct (Page.trimStart v) as [|c0 t] eqn:Et.
    + discriminate H.
    + pose proof (Hhead c0 t eq_refl) as Hc0.
      destruct (trimEnd_keeps_head c0 t Hc0) as [rest' Hr].
      rewrite Hr in H. injection H as <- _. exact Hc0.
  - exact Hlast.
Qed.

End PageLoad.

(* ------------------------------------------------------------------ *)
(** ** Unpacking an uploaded repository *)

Section Unpack.

Variable st : Storage.
Variable env : Collaborators.

Lemma HasSuffix_split (s suffix : string) :
  HasSuffix s suffix = true -> exists pre, s = (pre ++ suffix)%string.
Proof.
  induction s as [|a s IH]; cbn [HasSuffix]; intros H.
  - rewrite orb_false_r in H. apply String.eqb_eq in H. subst.
    exists EmptyString. reflexivity.
  - apply orb_true_iff in H. destruct H as [H | H].
    + apply String.eqb_eq in H. exists EmptyString. now rewrite H.
    + destruct (IH H) as [pre ->]. exists (String a pre). reflexivity.
Qed.

Lemma append_nonempty_eqb (a b : string) :
  b <> "" -> ((a ++ b) =? "")%string = false.
Proof.
  intros Hb. apply String.eqb_neq. intros H.
  destruct a; simpl in H; [contradiction | discriminate].
Qed.

Lemma strip_keeps (a b : string) :
  b <> "" -> stripTrailingSlashes b = b ->
  stripTrailingSlashes (a ++ b) = (a ++ b)%string.
Proof.
  intros Hb Hs. induction a as [|x a IH]; [exact Hs|].
  cbn [String.append stripTrailingSlashes]. rewrite IH.
  now rewrite (append_nonempty_eqb a b Hb).
Qed.

Lemma contains_append_no (c : ascii) (a b : string) :
  Go.contains c b = false -> Go.contains c (a ++ b)%string = Go.contains c a.
Proof.
  intros Hb. induction a as [|x a IH]; simpl; [exact Hb | now rewrite IH].
Qed.

Lemma afterLastSlash_append (a b : string) :
  Go.contains "/"%char b = false ->
  afterLastSlash (a ++ b) = (afterLastSlash a ++ b)%string.
Proof.
  intros Hb. induction a as [|x a IH].
  - simpl. destruct b as [|y b]; [reflexivity|].
    simpl in Hb. apply orb_false_iff in Hb. destruct Hb as [Hy Hb].
    cbn [afterLastSlash]. now rewrite Hb, Hy.
  - cbn [String.append afterLastSlash].
    rewrite (contains_append_no "/"%char a b Hb).
    destruct (Go.contains "/"%char a); [exact IH|].
    destruct (Ascii.eqb x "/"%char); reflexivity.
Qed.

Lemma afterLastSlash_no_slash (s : string) :
  Go.contains "/"%char (afterLastSlash s) = false.
Proof.
  induction s as [|a s IH]; [reflexivity|].
  cbn [afterLastSlash].
  destruct (Go.contains "/"%char s) eqn:Hs; [exact IH|].
  destruct (Ascii.eqb a "/"%char) eqn:Ha; [exact Hs|].
  simpl. now rewrite Ha, Hs.
Qed.

Lemma afterLastSlash_suffix (s : string) :
  exists dir, s = (dir ++ afterLastSlash s)%string.
Proof.
  induction s as [|a s IH].
  - exists EmptyString. reflexivity.
  - cbn [afterLastSlash]. destruct (Go.contains "/"%char s).
    + destruct IH as [dir Hd]. exists (String a dir). simpl. now rewrite <- Hd.
    + destruct (Ascii.eqb a "/"%char).
      * exists (String a EmptyString). reflexivity.
      * exists EmptyString. reflexivity.
Qed.

Lemma append_assoc (a b c : string) :
  ((a ++ b) ++ c)%string = (a ++ b ++ c)%string.
Proof.
  induction a as [|x a IH]; simpl; [reflexivity | now rewrite IH].
Qed.

(** X20. A member of the archive whose name ends in ".yang" is written
    under its last path element only: the directories of the member name
    are dropped, and the file name joined to the repository folder has no
    slash in it, so no member name can direct a write outside that
    folder. *)
Theorem member_lands_in_repo_folder (destFolder name : string) :
  HasSuffix name ".yang" = true ->
  exists dir stem,
    name = (dir ++ stem ++ ".yang")%string
    /\ Base name = (stem ++ ".yang")%string
    /\ Go.contains "/"%char (Base name) = false
    /\ memberPath st destFolder name
       = Clean st (destFolder ++ "/" ++ stem ++ ".yang").
Proof.
  intros H. destruct (HasSuffix_split _ _ H) as [pre ->].
  assert (HB : Base (pre ++ ".yang") = (afterLastSlash pre ++ ".yang")%string).
  { unfold Base.
    rewrite (append_nonempty_eqb pre ".yang") by discriminate.
    rewrite (strip_keeps pre ".yang") by (discriminate || reflexivity).
    rewrite (afterLastSlash_append pre ".yang") by reflexivity.
    now rewrite (append_nonempty_eqb (afterLastSlash pre) ".yang") by discriminate. }
  destruct (afterLastSlash_suffix pre) as [dir Hdir].
  exists dir, (afterLastSlash pre).
  split; [now rewrite <- append_assoc, <- Hdir|].
  split; [exact HB|]. split.
  - rewrite HB, contains_append_no by reflexivity. apply afterLastSlash_no_slash.
  - unfold memberPath. now rewrite HB.
Qed.

Lemma extractMembers_done (destFolder : string) (members : list string) :
  forall done done',
    extractMembers st destFolder members done = (None, done') ->
    done' = done ++ flat_map (writeOps st destFolder)
                      (filter (fun name => HasSuffix name ".yang") members).
Proof.
  induction members as [|name rest IH]; intros done done'; cbn [extractMembers filter].
  - intros [= <-]. simpl. now rewrite app_nil_r.
  - destruct (HasSuffix name ".yang"); [|apply IH].
    unfold perform.
    destruct (fails st done _); [discriminate|].
    destruct (fails st (done ++ _) (OpOpenMember name)); [discriminate|].
    destruct (fails st ((done ++ _) ++ _) (OpCopyMember _ name)); [discriminate|].
    intros H. apply IH in H. rewrite H.
    cbn [flat_map writeOps]. rewrite <- !app_assoc. reflexivity.
Qed.

Lemma extractMembers_no_remove (destFolder : string) (members : list string) :
  forall done,
    exists new,
      snd (extractMembers st destFolder members done) = done ++ new
      /\ existsb isRemove new = false.
Proof.
  induction members as [|name rest IH]; intros done; cbn [extractMembers].
  - exists []. simpl. now rewrite app_nil_r.
  - destruct (HasSuffix name ".yang"); [|apply IH].
    unfold perform.
    destruct (fails st done _).
    { eexists. split; [reflexivity | reflexivity]. }
    destruct (fails st (done ++ _) (OpOpenMember name)).
    { eexists. cbn [snd]. rewrite <- app_assoc. split; reflexivity. }
    destruct (fails st ((done ++ _) ++ _) (OpCopyMember _ name)).
    { eexists. cbn [snd]. rewrite <- !app_assoc. split; reflexivity. }
    destruct (IH (((done ++ [OpOpenFile (memberPath st destFolder name)])
                   ++ [OpOpenMember name])
                  ++ [OpCopyMember (memberPath st destFolder name) name]))
      as (new & Hn & Hr).
    eexists. rewrite Hn, <- !app_assoc. split; [reflexivity|].
    simpl. exact Hr.
Qed.

(** X21. An unpacking that succeeds has done this and nothing else:
    opened the archive, made the repository folder, written the members
    whose name ends in ".yang" (in lower case, as the test of the bytes
    is exact) in the order of the archive, and removed the archive.
    Members with another name are never opened. *)
Theorem extract_writes_yang_members_in_order
  (filename : string) (done done' : list FsOp) :
  extractYangFolder st filename done = (None, done') ->
  done' = done
          ++ [OpOpenReader (yangFolder ++ filename);
              OpMkdirAll (repoFolder st filename)]
          ++ flat_map (writeOps st (repoFolder st filename))
               (filter (fun name => HasSuffix name ".yang")
                  (archiveMembers st done (yangFolder ++ filename)))
          ++ [OpRemove (yangFolder ++ filename)].
Proof.
  unfold extractYangFolder, perform.
  destruct (fails st done _); [discriminate|].
  destruct (fails st (done ++ _) (OpMkdirAll _)); [discriminate|].
  destruct (extractMembers st _ _ _) as [[err|] d] eqn:E; [discriminate|].
  apply extractMembers_done in E. subst d.
  destruct (fails st _ (OpRemove _)); [discriminate|].
  intros [= <-]. rewrite <- !app_assoc. reflexivity.
Qed.

(** X22. An unpacking that fails leaves the archive in place and undoes
    nothing: no removal is attempted, unless the removal of the archive
    is itself the step that failed, as the last one. *)
Theorem extract_failure_keeps_archive
  (filename : string) (done done' : list FsOp) (err : error) :
  extractYangFolder st filename done = (Some err, done') ->
  exists new,
    done' = done ++ new
    /\ (existsb isRemove new = false
        \/ exists before,
             new = before ++ [OpRemove (yangFolder ++ filename)]
             /\ existsb isRemove before = false
             /\ fails st (done ++ before) (OpRemove (yangFolder ++ filename))
                = Some err).
Proof.
  unfold extractYangFolder, perform.
  destruct (fails st done _).
  { intros [= _ <-]. eexists. split; [reflexivity|]. now left. }
  destruct (fails st (done ++ _) (OpMkdirAll _)).
  { intros [= _ <-]. eexists. rewrite <- app_assoc.
    split; [reflexivity|]. now left. }
  match goal with
  | |- context [extractMembers st ?d ?m ?t] =>
      destruct (extractMembers_no_remove d m t) as (new & Hn & Hr);
      destruct (extractMembers st d m t) as [[e|] d']
  end; cbn [snd] in Hn; subst d'.
  - intros [= _ <-]. eexists. rewrite <- !app_assoc.
    split; [reflexivity|]. left. simpl. exact Hr.
  - destruct (fails st _ (OpRemove _)) eqn:Hf; [|discriminate].
    intros [= <- <-].
    exists ([OpOpenReader (yangFolder ++ filename);
             OpMkdirAll (repoFolder st filename)] ++ new
            ++ [OpRemove (yangFolder ++ filename)]).
    rewrite <- !app_assoc. split; [reflexivity|]. right.
    exists ([OpOpenReader (yangFolder ++ filename);
             OpMkdirAll (repoFolder st filename)] ++ new).
    rewrite <- !app_assoc. split; [reflexivity|].
    split; [simpl; exact Hr|].
    rewrite <- Hf. f_equal. rewrite <- !app_assoc. reflexivity.
Qed.

(** X23. An upload answered with 200 has written the archive under the
    uploads folder, unpacked it and removed that same archive as its last
    step; the server state is untouched. An archive without a member in
    ".yang" is no error. *)
Theorem upload_success_removes_archive
  (filename : string) (done : list FsOp) (s : srv) :
  code (fst (fst (upload st env (inr filename) done s))) = 200 ->
  upload st env (inr filename) done s
  = (writeResponse "success" "Repo uploaded", s,
     done
     ++ [OpCreate (yangFolder ++ filename); OpCopyUpload (yangFolder ++ filename);
         OpOpenReader (yangFolder ++ filename);
         OpMkdirAll (repoFolder st filename)]
     ++ flat_map (writeOps st (repoFolder st filename))
          (filter (fun name => HasSuffix name ".yang")
             (archiveMembers st
                (done ++ [OpCreate (yangFolder ++ filename);
                          OpCopyUpload (yangFolder ++ filename)])
                (yangFolder ++ filename)))
     ++ [OpRemove (yangFolder ++ filename)]).
Proof.
  unfold upload, saveFile, perform.
  destruct (fails st done _).
  { cbn [raiseError fst]. rewrite writeResponse_error. discriminate. }
  destruct (fails st (done ++ _) (OpCopyUpload _)).
  { cbn [raiseError fst]. rewrite writeResponse_error. discriminate. }
  unfold extractYangFolder, perform.
  destruct (fails st _ (OpOpenReader _)).
  { cbn [raiseError fst]. rewrite writeResponse_error. discriminate. }
  destruct (fails st _ (OpMkdirAll _)).
  { cbn [raiseError fst]. rewrite writeResponse_error. discriminate. }
  destruct (extractMembers st _ _ _) as [[err|] d] eqn:E.
  { cbn [raiseError fst]. rewrite writeResponse_error. discriminate. }
  apply extractMembers_done in E. subst d.
  destruct (fails st _ (OpRemove _)).
  { cbn [raiseError fst]. rewrite writeResponse_error. discriminate. }
  intros _. rewrite <- !app_assoc. reflexivity.
Qed.

End Unpack.

(* ------------------------------------------------------------------ *)
(** ** The further properties on concrete inputs *)

Lemma search_concatenates_pages_witness :
  (forall k, (k < 2)%nat ->
     continues (responseAt (platform 3600 None sevenTypes) k 0 3 zeroSrv) 3 = true)
  /\ fst (intentTypeSearch (platform 3600 None sevenTypes) 5 0 3 zeroSrv)
     = Returned (flat_map (keysAt (platform 3600 None sevenTypes) 0 3 zeroSrv)
                   (seq 0 3)).
Proof.
  assert (H1 : forall k, (k < 2)%nat ->
            continues (responseAt (platform 3600 None sevenTypes) k 0 3 zeroSrv) 3
            = true).
  { intros k Hk. destruct k as [|[|k]]; [reflexivity | reflexivity | lia]. }
  split; [exact H1|].
  exact (search_concatenates_pages (platform 3600 None sevenTypes) 2 5 0 3 zeroSrv
           H1 eq_refl eq_refl ltac:(lia)).
Defined.

Lemma search_fails_as_a_whole_witness :
  (forall k, (k < 2)%nat ->
     continues (responseAt (flakyCatalogue sevenTypes 2) k 0 3 zeroSrv) 3 = true)
  /\ fst (intentTypeSearch (flakyCatalogue sevenTypes 2) 5 0 3 zeroSrv)
     = Failed (ErrPaginatedIntentTypes
                 (ErrPaginatedIntentTypes
                    (ErrFetchIntentTypes (External "timeout")))).
Proof.
  assert (H1 : forall k, (k < 2)%nat ->
            continues (responseAt (flakyCatalogue sevenTypes 2) k 0 3 zeroSrv) 3
            = true).
  { intros k Hk. destruct k as [|[|k]]; [reflexivity | reflexivity | lia]. }
  split; [exact H1|].
  exact (search_fails_as_a_whole (flakyCatalogue sevenTypes 2) 2 5 0 3 zeroSrv
           (ErrFetchIntentTypes (External "timeout")) H1 eq_refl ltac:(lia)).
Defined.

Lemma failed_connect_then_disconnect_revokes_witness :
  credentialsComplete
    (snd (Decode (fullBody "10.0.0.1" "admin" "wrong") (nsp zeroSrv)))
  /\ transportCalls
       (snd (nspDisconnect (flakyCatalogue [] 0)
               (snd (nspConnect (flakyCatalogue [] 0)
                       (fullBody "10.0.0.1" "admin" "wrong") zeroSrv))))
     = transportCalls zeroSrv ++ [EvGetToken; EvRevokeToken].
Proof.
  assert (H : credentialsComplete
                (snd (Decode (fullBody "10.0.0.1" "admin" "wrong") (nsp zeroSrv)))).
  { repeat split; discriminate. }
  split; [exact H|].
  exact (proj2 (proj2 (proj2
           (failed_connect_then_disconnect_revokes (flakyCatalogue [] 0)
              (fullBody "10.0.0.1" "admin" "wrong") zeroSrv
              (External "bad credentials")
              {| Ip := "10.0.0.1"; User := "admin"; Pass := "wrong";
                 token := noToken |}
              eq_refl H eq_refl ltac:(discriminate) eq_refl)))).
Defined.

Lemma sleeper_outlives_disconnect_witness :
  In (Sleeping 3590000000000)
     (routines (snd (nspDisconnect (platform 3600 None [])
                       {| nsp := nsp connectedSrv; events := [];
                          routines := [Sleeping 3590000000000] |}))).
Proof.
  exact (proj1 (sleeper_outlives_disconnect (platform 3600 None [])
                  {| nsp := nsp connectedSrv; events := [];
                     routines := [Sleeping 3590000000000] |}
                  3590000000000 (or_introl eq_refl))).
Defined.

Lemma refresh_returns_on_zero_or_failure_witness :
  tokenRefreshRoutine (platform 5 (Some (External "timeout")) []) 1 (sessionWithTtl 5)
  = (Returned tt,
     snd (tokenRefreshRoutine (platform 5 (Some (External "timeout")) []) 1
            (sessionWithTtl 5)))
  /\ (ExpiresIn (token (nsp (snd (tokenRefreshRoutine
                                    (platform 5 (Some (External "timeout")) []) 1
                                    (sessionWithTtl 5))))) = 0
      \/ (exists prefix err,
            events (snd (tokenRefreshRoutine
                           (platform 5 (Some (External "timeout")) []) 1
                           (sessionWithTtl 5)))
            = prefix ++ [EvRevokeToken;
                         EvLog ("disconnecting from NSP ("
                                ++ Ip (nsp (snd (tokenRefreshRoutine
                                                   (platform 5 (Some (External "timeout")) [])
                                                   1 (sessionWithTtl 5))))
                                ++ ") failed: " ++ Error err)%string])
      \/ (exists prefix err,
            events (snd (tokenRefreshRoutine
                           (platform 5 (Some (External "timeout")) []) 1
                           (sessionWithTtl 5)))
            = prefix ++ [EvGetToken;
                         EvLog ("reconnecting to NSP ("
                                ++ Ip (nsp (snd (tokenRefreshRoutine
                                                   (platform 5 (Some (External "timeout")) [])
                                                   1 (sessionWithTtl 5))))
                                ++ ") failed: " ++ Error err)%string])).
Proof.
  split; [reflexivity|].
  exact (refresh_returns_on_zero_or_failure
           (platform 5 (Some (External "timeout")) []) 1 (sessionWithTtl 5) _
           eq_refl).
Defined.

Lemma refresh_sleeps_ttl_less_ten_witness :
  ExpiresIn (token (nsp (sessionWithTtl 30))) <> 0
  /\ -9223372026 <= ExpiresIn (token (nsp (sessionWithTtl 30))) <= 9223372046
  /\ refreshHead (sessionWithTtl 30) = Some 20000000000.
Proof.
  assert (H1 : ExpiresIn (token (nsp (sessionWithTtl 30))) <> 0) by discriminate.
  assert (H2 : -9223372026 <= ExpiresIn (token (nsp (sessionWithTtl 30)))
               <= 9223372046) by (simpl; lia).
  split; [exact H1|]. split; [exact H2|].
  exact (refresh_sleeps_ttl_less_ten (sessionWithTtl 30) H1 H2).
Defined.

(** Past that range the product wraps: the sleep asked for is negative. *)
Example refresh_sleep_wraps :
  refreshHead (sessionWithTtl 9223372047) = Some (-9223372036709551616).
Proof.
  reflexivity.
Qed.

Lemma platform_neverFails (ttl : Z) (data : list IntentType) :
  ttl <> 0 -> neverFails (platform ttl None data).
Proof.
  intros H. split; intros acc history; simpl; auto.
Qed.

Lemma refresh_keeps_renewing_witness :
  neverFails (platform 3600 None [])
  /\ ExpiresIn (token (nsp connectedSrv)) <> 0
  /\ fst (tokenRefreshRoutine (platform 3600 None []) 3 connectedSrv) = OutOfFuel
  /\ transportCalls (snd (tokenRefreshRoutine (platform 3600 None []) 3 connectedSrv))
     = transportCalls connectedSrv
       ++ List.concat (repeat [EvRevokeToken; EvGetToken] 3).
Proof.
  assert (H1 : neverFails (platform 3600 None []))
    by (apply platform_neverFails; discriminate).
  assert (H2 : ExpiresIn (token (nsp connectedSrv)) <> 0) by discriminate.
  split; [exact H1|]. split; [exact H2|].
  exact (refresh_keeps_renewing (platform 3600 None []) 3 connectedSrv H1 H2).
Defined.

Lemma connect_then_status_witness :
  fst (nspConnect (platform 3600 None []) (fullBody "10.0.0.1" "admin" "pw") zeroSrv)
  = {| code := 200; text := "NSP connected" |}
  /\ fst (nspIsConnected (platform 3600 None [])
            (snd (nspConnect (platform 3600 None [])
                    (fullBody "10.0.0.1" "admin" "pw") zeroSrv)))
     = JsonBody (JObject [("ip"%string, JString "10.0.0.1");
                          ("user"%string, JString "admin")])
  /\ snd (nspIsConnected (platform 3600 None [])
            (snd (nspConnect (platform 3600 None [])
                    (fullBody "10.0.0.1" "admin" "pw") zeroSrv)))
     = snd (nspConnect (platform 3600 None [])
              (fullBody "10.0.0.1" "admin" "pw") zeroSrv).
Proof.
  exact (connect_then_status (platform 3600 None []) "10.0.0.1" "admin" "pw" zeroSrv
           {| Ip := "10.0.0.1"; User := "admin"; Pass := "pw";
              token := {| AccessToken := "secret"; ExpiresIn := 3600 |} |}
           ltac:(discriminate) ltac:(discriminate) ltac:(discriminate)
           eq_refl eq_refl eq_refl ltac:(discriminate)).
Defined.

Lemma list_nsp_lists_catalogue_witness :
  servesCatalogue (platform 3600 None sevenTypes) sevenTypes 300
  /\ fst (listHandler sampleDisk (platform 3600 None sevenTypes) 8 "nsp" connectedSrv)
     = Some (JsonBody
               (JArray (map (fun it => JObject [("name"%string,
                                                 JString (intentTypeKey it))])
                          sevenTypes)))
  /\ nsp (snd (listHandler sampleDisk (platform 3600 None sevenTypes) 8 "nsp"
                 connectedSrv))
     = nsp connectedSrv.
Proof.
  assert (H1 : servesCatalogue (platform 3600 None sevenTypes) sevenTypes 300)
    by apply platform_serves.
  split; [exact H1|].
  exact (list_nsp_lists_catalogue sampleDisk (platform 3600 None sevenTypes)
           sevenTypes 8 connectedSrv H1 eq_refl ltac:(simpl; lia)).
Defined.

(** An empty catalogue is listed as null. *)
Example list_nsp_empty_is_null :
  fst (listHandler sampleDisk (platform 3600 None []) 1 "nsp" connectedSrv)
  = Some (JsonBody JNull).
Proof.
  reflexivity.
Qed.

Lemma list_calls_platform_only_for_nsp_witness :
  "NSP"%string <> "nsp"%string
  /\ transportCalls (snd (listHandler sampleDisk (platform 3600 None sevenTypes) 8
                            "NSP" connectedSrv))
     = transportCalls connectedSrv
  /\ nsp (snd (listHandler sampleDisk (platform 3600 None sevenTypes) 8
                 "NSP" connectedSrv)) = nsp connectedSrv
  /\ routines (snd (listHandler sampleDisk (platform 3600 None sevenTypes) 8
                      "NSP" connectedSrv)) = routines connectedSrv.
Proof.
  assert (H : "NSP"%string <> "nsp"%string) by discriminate.
  split; [exact H|].
  exact (list_calls_platform_only_for_nsp sampleDisk (platform 3600 None sevenTypes)
           8 "NSP" connectedSrv H).
Defined.

Lemma sampleDisk_readable (e : DirEntry) :
  In e [dirEntry "srl"; fileEntry "a.yang"; fileEntry "notes.txt"; fileEntry "C.YANG"] ->
  IsDir e = true -> readable sampleDisk e.
Proof.
  intros [<- | [<- | [<- | [<- | []]]]] Hd; try discriminate Hd.
  eexists. reflexivity.
Qed.

Lemma list_local_entries_witness :
  exists repos,
    listHandler sampleDisk (platform 3600 None []) 0 "local" zeroSrv
    = (Some (JsonBody
               (JArray (map marshalListResponse
                          (repos ++ [{| ListName := "";
                                        Files := ["a.yang"; "C.YANG"]%string |}])))),
       zeroSrv)
    /\ map ListName repos = ["srl"%string].
Proof.
  destruct (list_local_entries sampleDisk (platform 3600 None [])
              [dirEntry "srl"; fileEntry "a.yang"; fileEntry "notes.txt";
               fileEntry "C.YANG"] 0 zeroSrv eq_refl sampleDisk_readable)
    as (repos & H1 & H2 & _).
  exists repos. split; [exact H1 | exact H2].
Defined.

Lemma brokenDisk_readable (e : DirEntry) :
  In e [dirEntry "ok"] -> IsDir e = true -> readable brokenDisk e.
Proof.
  intros [<- | []] _. eexists. reflexivity.
Qed.

Lemma list_local_fails_on_first_unreadable_witness :
  fst (listHandler brokenDisk (platform 3600 None []) 0 "local" zeroSrv)
  = Some (Plain (httpError
                   "reading local yang repos failed / permission denied: ../uploads/bad/"
                   500)).
Proof.
  exact (list_local_fails_on_first_unreadable brokenDisk (platform 3600 None [])
           [dirEntry "ok"] [dirEntry "worse"; fileEntry "a.yang"] (dirEntry "bad")
           (External "permission denied: ../uploads/bad/") 0 zeroSrv
           eq_refl brokenDisk_readable eq_refl eq_refl).
Defined.

Lemma isYangFile_iff_witness :
  isASCII "model.YANG" = true
  /\ (isYangFile sampleDisk "model.YANG" = true
      <-> exists stem e, "model.YANG"%string = (stem ++ e)%string /\ yangSuffix e).
Proof.
  split; [reflexivity|].
  exact (isYangFile_iff sampleDisk "model.YANG" eq_refl).
Defined.

Lemma load_trims_url_path_witness :
  Page.load [(Page.js "path", Page.js "  /a b/c ")] (Page.js "nsp") (Page.js "srl")
  = inr {| Page.kind := Page.js "nsp"; Page.basename := Page.js "srl";
           Page.urlPath := Page.js "/a b/c" |}
  /\ exists pre post,
       Page.js "  /a b/c " = pre ++ Page.js "/a b/c" ++ post
       /\ forallb Page.isWhiteSpace pre = true
       /\ forallb Page.isWhiteSpace post = true.
Proof.
  split; [reflexivity|].
  destruct (load_trims_url_path [(Page.js "path", Page.js "  /a b/c ")]
              (Page.js "nsp") (Page.js "srl") _ eq_refl)
    as (pre & post & H1 & H2 & H3 & _).
  exists pre, post. auto.
Defined.

Lemma member_lands_in_repo_folder_witness :
  HasSuffix "repo/models/a.yang" ".yang" = true
  /\ exists dir stem,
       "repo/models/a.yang"%string = (dir ++ stem ++ ".yang")%string
       /\ Base "repo/models/a.yang" = (stem ++ ".yang")%string
       /\ Go.contains "/"%char (Base "repo/models/a.yang") = false
       /\ memberPath (plainStorage sampleArchive) "../uploads/repo"
            "repo/models/a.yang"
          = Clean (plainStorage sampleArchive)
              ("../uploads/repo" ++ "/" ++ stem ++ ".yang").
Proof.
  split; [reflexivity|].
  exact (member_lands_in_repo_folder (plainStorage sampleArchive)
           "../uploads/repo" "repo/models/a.yang" eq_refl).
Defined.

Lemma extract_writes_yang_members_in_order_witness :
  extractYangFolder (plainStorage sampleArchive) "repo.zip" []
  = (None,
     [OpOpenReader "../uploads/repo.zip"; OpMkdirAll "../uploads/repo";
      OpOpenFile "../uploads/repo/a.yang"; OpOpenMember "repo/models/a.yang";
      OpCopyMember "../uploads/repo/a.yang" "repo/models/a.yang";
      OpOpenFile "../uploads/repo/b.yang"; OpOpenMember "repo/b.yang";
      OpCopyMember "../uploads/repo/b.yang" "repo/b.yang";
      OpRemove "../uploads/repo.zip"])
  /\ snd (extractYangFolder (plainStorage sampleArchive) "repo.zip" [])
     = [] ++ [OpOpenReader (yangFolder ++ "repo.zip");
              OpMkdirAll (repoFolder (plainStorage sampleArchive) "repo.zip")]
          ++ flat_map (writeOps (plainStorage sampleArchive)
                         (repoFolder (plainStorage sampleArchive) "repo.zip"))
               (filter (fun name => HasSuffix name ".yang") sampleArchive)
          ++ [OpRemove (yangFolder ++ "repo.zip")].
Proof.
  split; [reflexivity|].
  exact (extract_writes_yang_members_in_order (plainStorage sampleArchive)
           "repo.zip" [] _ eq_refl).
Defined.

Lemma extract_failure_keeps_archive_witness :
  exists new,
    snd (extractYangFolder (fullStorage sampleArchive) "repo.zip" []) = [] ++ new
    /\ (existsb isRemove new = false
        \/ exists before,
             new = before ++ [OpRemove (yangFolder ++ "repo.zip")]
             /\ existsb isRemove before = false
             /\ fails (fullStorage sampleArchive) ([] ++ before)
                  (OpRemove (yangFolder ++ "repo.zip"))
                = Some (External
                          "copying file content failed: no space left on device")).
Proof.
  exact (extract_failure_keeps_archive (fullStorage sampleArchive) "repo.zip" []
           _ (External "copying file content failed: no space left on device")
           eq_refl).
Defined.

Lemma upload_success_removes_archive_witness :
  code (fst (fst (upload (plainStorage ["README.md"%string]) (platform 3600 None [])
                    (inr "docs.zip"%string) [] zeroSrv))) = 200
  /\ upload (plainStorage ["README.md"%string]) (platform 3600 None [])
       (inr "docs.zip"%string) [] zeroSrv
     = (writeResponse "success" "Repo uploaded", zeroSrv,
        [OpCreate "../uploads/docs.zip"; OpCopyUpload "../uploads/docs.zip";
         OpOpenReader "../uploads/docs.zip"; OpMkdirAll "../uploads/docs";
         OpRemove "../uploads/docs.zip"]).
Proof.
  split; [reflexivity|].
  exact (upload_success_removes_archive (plainStorage ["README.md"%string])
           (platform 3600 None []) "docs.zip" [] zeroSrv eq_refl).
Defined.

(** X24. Two intent types get the same key only if they have the same
    name and the same version, underscores in names and negative versions
    included: the keys of a listing name their intent types without
    ambiguity, and the module fetch splits each key back into the pair it
    was made from. *)
Theorem keys_never_collide (a b : IntentType) :
  (intentTypeKey a = intentTypeKey b <-> a = b)
  /\ splitIntentType (intentTypeKey a) = Some (Name a, Go.fmt_d (Version a))
  /\ (Go.fmt_d (Version a) = Go.fmt_d (Version b) <-> Version a = Version b).
Proof.
  split; [|split].
  - split; [apply intentTypeKey_inj | now intros ->].
  - apply intentTypeKey_split.
  - split; [apply fmt_d_inj | now intros ->].
Qed.
